(** * IMS analytics API (src/app.py): a shallow embedding and its properties

    The Flask application of [src/app.py] is embedded as follows.
    - Python values that travel through the cache and through [jsonify]
      are terms of [pyval]; a dict is an association list in key order.
    - The module-level dict [_cache], the wall clock read by [time.time()]
      and the observable effects of a request (cache reads, cache writes,
      queries sent to the store) are the fields of [world]; handlers are
      computations in the state monad [M].
    - Each SQL text is embedded as the list function PostgreSQL evaluates
      for it, over the two tables the queries read.  What the SQL standard
      leaves to the engine (the order of rows that compare equal under an
      ORDER BY) is left to a [Runtime], of which only the laws of a sort
      are known; so are the engine's calendar and Python's [json.loads]
      and [int].
    - The store is taken to answer: a failed connection or query, which
      Flask turns into a 500, is outside the model.  Integer columns and
      counts are unbounded integers. *)

From Stdlib Require Import ZArith QArith Lqa String Ascii List Lia.
From stdpp Require Import base option list gmap strings pretty sorting.

Local Open Scope string_scope.
Local Open Scope list_scope.
Local Open Scope Z_scope.

(** ** Python values *)

#[local] Set Warnings "-register-all".

Inductive pyval : Type :=
| PNone
| PBool (b : bool)
| PInt (n : Z)
| PStr (s : string)
| PList (l : list pyval)
| PDict (d : list (string * pyval)).

Abbreviation pydict := (list (string * pyval)).

(** Python truthiness, as used by [if cached:], [if not user_id:],
    [r.get("reasons") or []]. *)
Definition truthy (v : pyval) : bool :=
  match v with
  | PNone => false
  | PBool b => b
  | PInt n => negb (n =? 0)
  | PStr s => negb (s =? "")%string
  | PList l => match l with [] => false | _ => true end
  | PDict d => match d with [] => false | _ => true end
  end.

(** [d.get(k)]: the value at [k], or [None]. *)
Fixpoint dict_get (d : pydict) (k : string) : option pyval :=
  match d with
  | [] => None
  | (k', v) :: d' => if (k' =? k)%string then Some v else dict_get d' k
  end.

(** [d[k] = v]: an existing key keeps its position, a new key goes last. *)
Fixpoint dict_set (d : pydict) (k : string) (v : pyval) : pydict :=
  match d with
  | [] => [(k, v)]
  | (k', v') :: d' =>
      if (k' =? k)%string then (k', v) :: d' else (k', v') :: dict_set d' k v
  end.

(** [x.get("title")] where [x] is known to be a dict. *)
Definition py_get (x : pydict) (k : string) : pyval :=
  match dict_get x k with Some v => v | None => PNone end.

(** [str(n)] for an int, as the f-strings of the cache keys render it. *)
Definition py_str_int (n : Z) : string := pretty n.

(** ** The runtime

    What the libraries below the application decide and the source does
    not: how the engine orders rows (any order that is sorted for the
    ORDER BY key; rows with equal keys come in an order of the engine's
    choosing), its calendar, [json.loads] and [int].  A text is the
    string of its bytes. *)
Class Runtime : Type := {
  order_by : forall A : Type, (A -> A -> bool) -> list A -> list A;
  order_by_perm : forall A (le : A -> A -> bool) (l : list A),
    order_by A le l ≡ₚ l;
  order_by_sorted : forall A (le : A -> A -> bool) (l : list A),
    (forall x y, le x y = true \/ le y x = true) ->
    Sorted (fun x y => le x y = true) (order_by A le l);
  (** [date_trunc('month', t)] *)
  month_start : Z -> Z;
  (** [date_trunc('day', t)::date::text] *)
  day_text : Z -> string;
  (** [t - make_interval(days => n)], where the engine computes it *)
  minus_days : Z -> Z -> Z;
  (** [json.loads(s)]; [None] when it raises *)
  json_loads : string -> option pyval;
  (** [int(s)] on the text of a query parameter; [None] when it raises
      [ValueError] *)
  py_int : string -> option Z
}.

Arguments order_by {_ _} le l.

(** ** A parser of ASCII decimal texts

    What Python's [int(s)] does on a text of ASCII characters: it skips
    the whitespace characters 9 to 13 and 32 at both ends, reads one
    optional sign and then decimal digits in which single underscores may
    separate digits, and raises [ValueError] on anything else, and
    (Python 3.11 and later, by default) on more than 4300 digits.  The
    handlers do not use this function: they call the [py_int] of the
    [Runtime], which stands for [int] itself.  It is the [py_int] of the
    sample runtime, which thereby rejects every text with a character
    above 127, though [int] reads some of them (Unicode digits and
    spaces). *)

Definition is_ascii_space (c : ascii) : bool :=
  let n := nat_of_ascii c in
  ((9 <=? n)%nat && (n <=? 13)%nat) || (n =? 32)%nat.

Definition digit_of (c : ascii) : option Z :=
  let n := Z.of_nat (nat_of_ascii c) in
  if (48 <=? n) && (n <=? 57) then Some (n - 48) else None.

Fixpoint lstrip (s : list ascii) : list ascii :=
  match s with
  | c :: s' => if is_ascii_space c then lstrip s' else s
  | [] => []
  end.

Definition strip (s : list ascii) : list ascii :=
  rev (lstrip (rev (lstrip s))).

(** [digits acc after_digit s]: [after_digit] tells whether the previous
    character was a digit, the only place an underscore or the end of the
    text may follow. *)
Fixpoint py_digits (acc : Z) (after_digit : bool) (s : list ascii) : option Z :=
  match s with
  | [] => if after_digit then Some acc else None
  | c :: s' =>
      match digit_of c with
      | Some d => py_digits (10 * acc + d) true s'
      | None =>
          if (Ascii.eqb c "_"%char) && after_digit
          then py_digits acc false s'
          else None
      end
  end.

(** The number of digit characters, which the limit is on. *)
Definition count_digits (s : list ascii) : Z :=
  Z.of_nat (length (filter (fun c => is_Some (digit_of c)) s)).

Definition max_str_digits : Z := 4300.

Definition limited_digits (s : list ascii) : option Z :=
  if max_str_digits <? count_digits s then None else py_digits 0 false s.

Definition ascii_int (s : string) : option Z :=
  match strip (list_ascii_of_string s) with
  | c :: s' =>
      if Ascii.eqb c "-"%char then Z.opp <$> limited_digits s'
      else if Ascii.eqb c "+"%char then limited_digits s'
      else limited_digits (c :: s')
  | [] => None
  end.

(** ** The process state and the handler monad *)

(** What a request can be observed to do besides answering. *)
Inductive event : Type :=
| EvCacheGet (k : string)
| EvCacheSet (k : string)
| EvQuery (q : string).

(** [w_cache] is the module-level dict [_cache]: key to (payload, stored-at).
    [w_now] is what [time.time()] would return, in seconds; readings are
    exact rationals, so that differences and comparisons are the
    mathematical ones. *)
Record world : Type := mkWorld {
  w_cache : gmap string (pyval * Q);
  w_now : Q;
  w_log : list event
}.

Definition M (A : Type) : Type := world -> A * world.

#[export] Instance M_ret : MRet M := fun A (a : A) w => (a, w).
#[export] Instance M_bind : MBind M :=
  fun A B (f : A -> M B) (m : M A) w => let '(a, w') := m w in f a w'.

Definition emit (e : event) : M unit :=
  fun w => (tt, mkWorld (w_cache w) (w_now w) (w_log w ++ [e])).

Definition time_time : M Q := fun w => (w_now w, w).

(** The clock moved to [t] while nothing else happens. *)
Definition set_clock (t : Q) (w : world) : world :=
  mkWorld (w_cache w) t (w_log w).

(** ** The TTL cache (lines 41-48) *)

(** [time.time() - ts > ttl] *)
Definition expired (now ts ttl : Q) : bool := negb (Qle_bool (now - ts) ttl).

(** The value [cache_get] returns from a given dict at a given time; a miss
    is Python's [None].  A stored pair is a non-empty tuple, so [not v]
    holds only for an absent key. *)
Definition cache_lookup (c : gmap string (pyval * Q)) (now : Q)
    (k : string) (ttl : Q) : pyval :=
  match c !! k with
  | None => PNone
  | Some (data, ts) => if expired now ts ttl then PNone else data
  end.

Definition cache_get (k : string) (ttl : Q) : M pyval :=
  emit (EvCacheGet k);;
  now ← time_time;
  (fun w => (cache_lookup (w_cache w) now k ttl, w)) : M pyval.

Definition cache_set (k : string) (data : pyval) : M unit :=
  emit (EvCacheSet k);;
  now ← time_time;
  (fun w => (tt, mkWorld (<[k := (data, now)]> (w_cache w)) (w_now w) (w_log w))) : M unit.

(** ** Requests, responses and the access guard (lines 18, 32-38) *)

(** [API_KEY = os.getenv("API_KEY")]: [None] when the variable is unset. *)
Record config : Type := mkConfig {
  API_KEY : option string
}.

(** The parts of a request the handlers read: the [X-API-KEY] header and
    the query string as (name, value) pairs in order. *)
Record request : Type := mkRequest {
  x_api_key : option string;
  args : list (string * string)
}.

Record response : Type := mkResponse {
  status : Z;
  body : pyval
}.

Definition jsonify (v : pyval) : response := mkResponse 200 v.

(** [request.args.get(name)]: the first value given for [name]. *)
Fixpoint args_get (a : list (string * string)) (name : string) : option string :=
  match a with
  | [] => None
  | (n, v) :: a' => if (n =? name)%string then Some v else args_get a' name
  end.

(** [request.args.get(name, type=int)]: [None] when absent or when [int]
    raises. *)
Definition args_get_int `{RT : Runtime} (a : list (string * string)) (name : string)
    : option Z :=
  match args_get a name with
  | None => None
  | Some s => py_int s
  end.

(** [not API_KEY]: unset, or set to the empty string. *)
Definition api_key_unset (cfg : config) : bool :=
  match API_KEY cfg with
  | None => true
  | Some k => (k =? "")%string
  end.

Definition unauthorized : response :=
  mkResponse 401 (PDict [("error", PStr "Unauthorized")]).

(** [None] lets the request through; a response is returned as it is. *)
Definition require_api_key (cfg : config) (req : request) : option response :=
  if api_key_unset cfg then None
  else if decide (x_api_key req = API_KEY cfg) then None
  else Some unauthorized.

(** ** The store: tables, NULLs and the SQL operators the queries use *)

(** Columns the queries read.  A nullable column is an [option]; instants
    are integers on the store's time line. *)
Record borrowing : Type := mkBorrowing {
  b_id : Z;
  b_user_id : Z;
  b_item_id : Z;
  b_approval_date : option Z;
  b_due_date : option Z;
  b_return_date : option Z
}.

Record item : Type := mkItem {
  i_id : Z;
  i_name : option string;
  i_category : option string
}.

(** [db_now] is the store's [NOW()]; [db_latency] the seconds one query
    takes on the application's clock. *)
Record database : Type := mkDatabase {
  borrowings : list borrowing;
  items : list item;
  db_now : Z;
  db_latency : Q
}.

#[export] Instance borrowing_eq_dec : EqDecision borrowing.
Proof. solve_decision. Defined.
#[export] Instance item_eq_dec : EqDecision item.
Proof. solve_decision. Defined.

(** SUM over the rows of a group: NULL when there is no row. *)
Definition sum_Z (l : list Z) : Z := foldr Z.add 0 l.

Definition sql_sum (l : list Z) : option Z :=
  match l with
  | [] => None
  | _ => Some (sum_Z l)
  end.

(** COUNT of rows (or of a column that is never NULL). *)
Definition sql_count {A} (l : list A) : Z := Z.of_nat (length l).

(** GROUP BY [key]: one group per distinct key value, NULLs together. *)
Definition group_by {A K} `{EqDecision K} (key : A -> K) (rows : list A)
    : list (K * list A) :=
  (fun k => (k, filter (fun r => key r = k) rows)) <$> remove_dups (key <$> rows).

(** Keys for ORDER BY ... DESC and ASC on an integer column. *)
Definition desc {A} (key : A -> Z) (x y : A) : bool := key y <=? key x.

(** A SQL value as psycopg2 hands it to Python. *)
Definition py_text (o : option string) : pyval :=
  match o with Some s => PStr s | None => PNone end.

Definition py_int_null (o : option Z) : pyval :=
  match o with Some n => PInt n | None => PNone end.

(** [TRIM(s)]: PostgreSQL removes the space character (and only it) from
    both ends. *)
Fixpoint ltrim (s : string) : string :=
  match s with
  | String c s' => if Ascii.eqb c " "%char then ltrim s' else s
  | EmptyString => EmptyString
  end.

Definition string_rev (s : string) : string :=
  string_of_list_ascii (rev (list_ascii_of_string s)).

Definition trim (s : string) : string :=
  string_rev (ltrim (string_rev (ltrim s))).

Definition sql_trim (o : option string) : option string := trim <$> o.

(** [NULLIF(a, b)]: NULL when [a = b], else [a]. *)
Definition sql_nullif (a : option string) (b : string) : option string :=
  match a with
  | Some s => if (s =? b)%string then None else Some s
  | None => None
  end.

(** [COALESCE(a, d)] with a non-NULL literal [d]. *)
Definition sql_coalesce (a : option string) (d : string) : string :=
  match a with Some s => s | None => d end.

(** [b JOIN items i ON i.id = b.item_id] *)
Definition borrowed_items (db : database) : list (borrowing * item) :=
  b ← borrowings db;
  i ← items db;
  if decide (i_id i = b_item_id b) then [(b, i)] else [].

(** ** The queries *)

Section Queries.
Context `{RT : Runtime}.
Variable db : database.

(** /top-books (lines 65-72): borrowings per item, most borrowed first,
    five rows. *)
Definition top_books_groups : list (Z * option string * Z) :=
  (fun g => (g.1.1, g.1.2, sql_count g.2))
    <$> group_by (fun bi => (i_id bi.2, i_name bi.2)) (borrowed_items db).

Definition q_top_books : list pydict :=
  (fun r => [("id", PInt r.1.1); ("name", py_text r.1.2); ("borrow_count", PInt r.2)])
    <$> take 5 (order_by (desc snd) top_books_groups).

(** /recs, first query (lines 93-97): the items the user ever borrowed. *)
Definition q_user_items (uid : Z) : list Z :=
  remove_dups (b_item_id <$> filter (fun b => b_user_id b = uid) (borrowings db)).

(** /recs, second query (lines 98-137), one definition per CTE. *)
Record co_row : Type := mkCo {
  rec_item : Z;
  reason_item : Z;
  co_count : Z
}.

Definition co (uid : Z) : list co_row :=
  let pairs :=
    b1 ← borrowings db;
    b2 ← borrowings db;
    if decide (b_user_id b1 = b_user_id b2
               /\ b_item_id b1 <> b_item_id b2
               /\ b_item_id b1 ∈ q_user_items uid)
    then [(b_item_id b2, b_item_id b1)] else [] in
  (fun g => mkCo g.1.1 g.1.2 (sql_count g.2)) <$> group_by id pairs.

Definition scores (uid : Z) : list (Z * Z) :=
  (fun g => (g.1, sum_Z (co_count <$> g.2))) <$> group_by rec_item (co uid).

Definition filtered (uid : Z) : list (Z * Z) :=
  take 10 (order_by (desc snd)
             (filter (fun s => s.1 ∉ q_user_items uid) (scores uid))).

(** The rows of [filtered f JOIN co c JOIN items i JOIN items i2]. *)
Record rec_join : Type := mkJoin {
  j_f : Z * Z;
  j_c : co_row;
  j_i : item;
  j_i2 : item
}.

Definition recs_joined (uid : Z) : list rec_join :=
  f ← filtered uid;
  c ← co uid;
  i ← items db;
  i2 ← items db;
  if decide (rec_item c = f.1 /\ i_id i = f.1 /\ i_id i2 = reason_item c)
  then [mkJoin f c i i2] else [].

(** [json_build_object('item_id', ..., 'title', ..., 'count', ...)] *)
Definition reason_object (j : rec_join) : pyval :=
  PDict [("item_id", PInt (reason_item (j_c j)));
         ("title", py_text (i_name (j_i2 j)));
         ("count", PInt (co_count (j_c j)))].

(** [json_agg(... ORDER BY c.co_count DESC)] over the rows of a group. *)
Definition reasons_of (g : list rec_join) : list rec_join :=
  order_by (desc (fun j => co_count (j_c j))) g.

Definition recs_groups (uid : Z) : list (Z * option string * Z * list rec_join) :=
  take 5 (order_by (desc (fun g => g.1.2))
            (group_by (fun j => ((j_f j).1, i_name (j_i j), (j_f j).2))
               (recs_joined uid))).

Definition recs_row (g : Z * option string * Z * list rec_join) : pydict :=
  [("id", PInt g.1.1.1);
   ("name", py_text g.1.1.2);
   ("score", PInt g.1.2);
   ("reasons", PList (reason_object <$> reasons_of g.2))].

Definition q_recs (uid : Z) : list pydict := recs_row <$> recs_groups uid.

(** /borrowings-trend (lines 170-178): approved borrowings of the last
    [days] days, per day, oldest day first. *)
Definition trend_rows (days : Z) : list Z :=
  omap (fun b =>
          match b_approval_date b with
          | Some t => if minus_days (db_now db) days <=? t then Some t else None
          | None => None
          end) (borrowings db).

Definition q_borrowings_trend (days : Z) : list pydict :=
  (fun g => [("day", PStr g.1); ("count", PInt (sql_count g.2))])
    <$> order_by (fun x y => String.leb x.1 y.1) (group_by day_text (trend_rows days)).

(** /top-categories (lines 193-201).  The select list names the folded
    label [category], and so does [i.category], a column of the joined
    tables: PostgreSQL reads an unqualified GROUP BY name as the input
    column when both exist, so the rows are grouped by the stored category
    and the label is computed once per group. *)
Definition category_label (c : option string) : string :=
  sql_coalesce (sql_nullif (sql_trim c) "") "Uncategorised".

Definition top_categories_groups : list (string * Z) :=
  (fun g => (category_label g.1, sql_count g.2))
    <$> group_by (fun bi => i_category bi.2) (borrowed_items db).

Definition top_categories_rows : list (string * Z) :=
  take 6 (order_by (desc snd) top_categories_groups).

Definition q_top_categories : list pydict :=
  (fun r => [("category", PStr r.1); ("count", PInt r.2)]) <$> top_categories_rows.

(** /overdue-stats (lines 225-231): three SUMs over the whole table, so
    exactly one row, whatever the table holds. *)
Definition is_overdue (b : borrowing) : bool :=
  match b_return_date b, b_due_date b with
  | None, Some due => due <? db_now db
  | _, _ => false
  end.

Definition is_borrowed (b : borrowing) : bool :=
  match b_return_date b with None => true | Some _ => false end.

Definition is_returned_this_month (b : borrowing) : bool :=
  match b_return_date b with
  | Some t => month_start (db_now db) <=? t
  | None => false
  end.

(** [SUM(CASE WHEN cond THEN 1 ELSE 0 END)::int] *)
Definition sum_case (cond : borrowing -> bool) : option Z :=
  sql_sum ((fun b => if cond b then 1 else 0) <$> borrowings db).

Definition q_overdue_stats : list pydict :=
  [[("overdue_now", py_int_null (sum_case is_overdue));
    ("borrowed_now", py_int_null (sum_case is_borrowed));
    ("returned_this_month", py_int_null (sum_case is_returned_this_month))]].

End Queries.

(** ** Shaping the recommendation rows (lines 146-151) *)

Section Shaping.
Context `{RT : Runtime}.

(** [rs[:2]] for the values it can be applied to: a list, or a string
    (whose items are one-character strings); [None] when Python raises. *)
Definition py_slice2 (rs : pyval) : option (list pyval) :=
  match rs with
  | PList l => Some (take 2 l)
  | PStr s => Some ((fun c => PStr (String c EmptyString)) <$> take 2 (list_ascii_of_string s))
  | _ => None
  end.

(** [[x.get("title") for x in xs if isinstance(x, dict)]] *)
Definition titles_of (xs : list pyval) : list pyval :=
  omap (fun x => match x with PDict d => Some (py_get d "title") | _ => None end) xs.

(** One turn of the loop over [rows]; [None] when it raises. *)
Definition shape_row (r : pydict) : option pydict :=
  r1 ← match dict_get r "reasons" with
       | Some (PStr s) => v ← json_loads s; Some (dict_set r "reasons" v)
       | _ => Some r
       end;
  let rs := match dict_get r1 "reasons" with
            | Some v => if truthy v then v else PList []
            | None => PList []
            end in
  xs ← py_slice2 rs;
  Some (dict_set r1 "because" (PList (titles_of xs))).

Definition shape_rows (rows : list pydict) : option (list pydict) :=
  mapM shape_row rows.

End Shaping.

(** ** The endpoint handlers *)

Section Handlers.
Context `{RT : Runtime}.
Variable cfg : config.
Variable db : database.
Variable req : request.

(** [cur.execute(q)]: the query named [q] is sent and answered.  The
    model follows the requests whose queries are answered.  A query that
    raises (the store cannot be reached; for /borrowings-trend, a [days]
    in the millions, for which [NOW() - make_interval(days => n)] is out
    of range) ends the request in Flask's 500 after the query and before
    any cache write: that path is not modelled, and no theorem below says
    that a handler never answers 500. *)
Definition execute (q : string) : M unit :=
  fun w => (tt, mkWorld (w_cache w) (w_now w + db_latency db)%Q (w_log w ++ [EvQuery q])).

(** The shape the handlers share once the guard let the request through:
    serve a truthy cached payload, else compute, store and serve. *)
Definition json_rows (rows : list pydict) : pyval := PList (PDict <$> rows).

Definition health : M response :=
  mret (jsonify (PDict [("ok", PBool true)])).

Definition top_books : M response :=
  match require_api_key cfg req with
  | Some r => mret r
  | None =>
      cached ← cache_get "top-books" 60%Q;
      if truthy cached then mret (jsonify cached)
      else
        execute "top-books";;
        let rows := json_rows (q_top_books db) in
        cache_set "top-books" rows;;
        mret (jsonify rows)
  end.

Definition bad_user_id : response :=
  mkResponse 400 (PDict [("error", PStr "user_id is required")]).

(** Flask's answer to an exception no handler catches. *)
Definition internal_error : response :=
  mkResponse 500 (PStr "Internal Server Error").

Definition recs : M response :=
  match require_api_key cfg req with
  | Some r => mret r
  | None =>
      match args_get_int (args req) "user_id" with
      | None => mret bad_user_id
      | Some user_id =>
          if user_id =? 0 then mret bad_user_id
          else
            let key := "recs:" +:+ py_str_int user_id in
            cached ← cache_get key 60%Q;
            if truthy cached then mret (jsonify cached)
            else
              execute "q_user_items";;
              match q_user_items db user_id with
              | [] => mret (jsonify (PList []))
              | _ :: _ =>
                  execute "q_recs";;
                  match shape_rows (q_recs db user_id) with
                  | None => mret internal_error
                  | Some rows =>
                      cache_set key (json_rows rows);;
                      mret (jsonify (json_rows rows))
                  end
              end
      end
  end.

(** [request.args.get("days", default=30, type=int)] *)
Definition days_arg : Z :=
  match args_get_int (args req) "days" with
  | Some d => d
  | None => 30
  end.

Definition borrowings_trend : M response :=
  match require_api_key cfg req with
  | Some r => mret r
  | None =>
      let cache_key := "borrowings-trend:" +:+ py_str_int days_arg in
      cached ← cache_get cache_key 120%Q;
      if truthy cached then mret (jsonify cached)
      else
        execute "borrowings-trend";;
        let rows := json_rows (q_borrowings_trend db days_arg) in
        cache_set cache_key rows;;
        mret (jsonify rows)
  end.

Definition top_categories : M response :=
  match require_api_key cfg req with
  | Some r => mret r
  | None =>
      cached ← cache_get "top-categories" 300%Q;
      if truthy cached then mret (jsonify cached)
      else
        execute "top-categories";;
        let rows := json_rows (q_top_categories db) in
        cache_set "top-categories" rows;;
        mret (jsonify rows)
  end.

Definition zero_stats : pydict :=
  [("overdue_now", PInt 0); ("borrowed_now", PInt 0); ("returned_this_month", PInt 0)].

(** [row = cur.fetchone()]; [dict(row) if row else {...}].  A fetched row
    is a sequence of its three columns, so it is truthy. *)
Definition overdue_out : pydict :=
  match head (q_overdue_stats db) with
  | Some row => if truthy (PDict row) then row else zero_stats
  | None => zero_stats
  end.

Definition overdue_stats : M response :=
  match require_api_key cfg req with
  | Some r => mret r
  | None =>
      cached ← cache_get "overdue-stats" 60%Q;
      if truthy cached then mret (jsonify cached)
      else
        execute "overdue-stats";;
        let out := PDict overdue_out in
        cache_set "overdue-stats" out;;
        mret (jsonify out)
  end.

Definition root : M response :=
  mret (jsonify (PDict
    [("service", PStr "LMS Emerging-Tech API");
     ("endpoints", PList [PStr "/health"; PStr "/top-books"; PStr "/recs?user_id=";
                          PStr "/borrowings-trend?days=30"; PStr "/top-categories";
                          PStr "/overdue-stats"])])).

End Handlers.

(** ** Vocabulary of the properties *)

(** The cache key of /recs for a user. *)
Definition recs_key (uid : Z) : string := "recs:" +:+ py_str_int uid.

(** What [cache_get] hands to the handler's [if cached:] for a key. *)
Definition cached_payload (w : world) (k : string) (ttl : Q) : pyval :=
  cache_lookup (w_cache w) (w_now w) k ttl.

(** The world after a handler computed [rows] with one query named [q]
    and stored them under [k]. *)
Definition recomputed (db : database) (w : world) (k q : string) (rows : pyval)
    : response * world :=
  (mkResponse 200 rows,
   mkWorld (<[k := (rows, (w_now w + db_latency db)%Q)]> (w_cache w))
     (w_now w + db_latency db)%Q
     (w_log w ++ [EvCacheGet k; EvQuery q; EvCacheSet k])).

(** A reason as the response carries it: item, title, count. *)
Definition reason : Type := Z * option string * Z.

Definition reason_py (x : reason) : pyval :=
  PDict [("item_id", PInt x.1.1); ("title", py_text x.1.2); ("count", PInt x.2)].

Definition reason_of_join (j : rec_join) : reason :=
  (reason_item (j_c j), i_name (j_i2 j), co_count (j_c j)).

(** The row is a recommendation whose [because] holds the titles of the
    first two reasons at most, the reasons being in descending count. *)
Definition recommendation_ok (r : pydict) : Prop :=
  exists rs : list reason,
    dict_get r "reasons" = Some (PList (reason_py <$> rs))
    /\ dict_get r "because" = Some (PList ((fun x => py_text x.1.2) <$> take 2 rs))
    /\ Sorted (fun x y => y.2 <= x.2) rs
    /\ Sorted (fun x y => y.2 <= x.2) (take 2 rs).

(** The row of a group after the loop: [because] is added last. *)
Definition shaped `{RT : Runtime} (g : Z * option string * Z * list rec_join) : pydict :=
  recs_row g
  ++ [("because", PList ((fun x => py_text x.1.2)
                           <$> take 2 (reason_of_join <$> reasons_of g.2)))].

(** NULL, or a text made of space characters only (the empty text too). *)
Definition blank_category (c : option string) : Prop :=
  match c with
  | None => True
  | Some s => Forall (fun ch => ch = " "%char) (list_ascii_of_string s)
  end.

(** The three ways a handler that caches under [k] for [ttl] seconds and
    computes [fresh] with the query [q] can end: turned away by the guard,
    served from the cache, or recomputed and stored. *)
Definition served (w : world) (k : string) (ttl : Q) : response * world :=
  (mkResponse 200 (cached_payload w k ttl),
   mkWorld (w_cache w) (w_now w) (w_log w ++ [EvCacheGet k])).

Definition outcome (db : database) (w : world) (k q : string) (ttl : Q)
    (fresh : pyval) (out : response * world) : Prop :=
  out = (unauthorized, w)
  \/ (truthy (cached_payload w k ttl) = true /\ out = served w k ttl)
  \/ (truthy (cached_payload w k ttl) = false /\ out = recomputed db w k q fresh).

(** The world after /recs found no history, and after it recomputed. *)
Definition recs_no_history (db : database) (w : world) (uid : Z) : response * world :=
  (mkResponse 200 (PList []),
   mkWorld (w_cache w) (w_now w + db_latency db)%Q
     (w_log w ++ [EvCacheGet (recs_key uid); EvQuery "q_user_items"])).

Definition recs_recomputed `{RT : Runtime} (db : database) (w : world) (uid : Z)
    : response * world :=
  (mkResponse 200 (json_rows (shaped <$> recs_groups db uid)),
   mkWorld
     (<[recs_key uid := (json_rows (shaped <$> recs_groups db uid),
                         (w_now w + db_latency db + db_latency db)%Q)]> (w_cache w))
     (w_now w + db_latency db + db_latency db)%Q
     (w_log w ++ [EvCacheGet (recs_key uid); EvQuery "q_user_items";
                  EvQuery "q_recs"; EvCacheSet (recs_key uid)])).

Definition recs_outcome `{RT : Runtime} (db : database) (req : request) (w : world)
    (out : response * world) : Prop :=
  out = (unauthorized, w)
  \/ ((args_get_int (args req) "user_id" = None
       \/ args_get_int (args req) "user_id" = Some 0)
      /\ out = (mkResponse 400 (PDict [("error", PStr "user_id is required")]), w))
  \/ (exists uid,
        args_get_int (args req) "user_id" = Some uid /\ uid <> 0
        /\ ((truthy (cached_payload w (recs_key uid) 60%Q) = true
             /\ out = served w (recs_key uid) 60%Q)
            \/ (truthy (cached_payload w (recs_key uid) 60%Q) = false
                /\ q_user_items db uid = []
                /\ out = recs_no_history db w uid)
            \/ (truthy (cached_payload w (recs_key uid) 60%Q) = false
                /\ q_user_items db uid <> []
                /\ out = recs_recomputed db w uid))).

(** The rows of /top-books before they are made dicts. *)
Definition top_books_rows `{RT : Runtime} (db : database) : list (Z * option string * Z) :=
  take 5 (order_by (desc snd) (top_books_groups db)).

(** The groups of /borrowings-trend in the order of the answer, and the
    borrowings that are counted in them. *)
Definition trend_groups `{RT : Runtime} (db : database) (days : Z)
    : list (string * list Z) :=
  order_by (fun x y => String.leb x.1 y.1) (group_by day_text (trend_rows db days)).

Definition approved_since `{RT : Runtime} (db : database) (days : Z) (b : borrowing)
    : bool :=
  match b_approval_date b with
  | Some t => minus_days (db_now db) days <=? t
  | None => false
  end.

(** The number of borrowings a condition holds for. *)
Definition count_where (cond : borrowing -> bool) (db : database) : Z :=
  sql_count (filter (fun b => cond b = true) (borrowings db)).

(** The effects [es] of one request to a handler that caches under [k]
    and sends the query [q], as far as the source fixes them: none when
    the guard turned the request away and only then; the cache read
    first; a query only after a miss; and a cache write only at the end of
    read, query, write. *)
Definition pipeline_effects (guard_passed miss : bool) (k q : string)
    (es : list event) : Prop :=
  (es = [] <-> guard_passed = false)
  /\ (es <> [] -> head es = Some (EvCacheGet k))
  /\ (forall q', EvQuery q' ∈ es -> q' = q /\ miss = true)
  /\ (forall k', EvCacheSet k' ∈ es -> es = [EvCacheGet k; EvQuery q; EvCacheSet k]).

(** ** Data for the examples *)

(** Users 1 and 2, items A = 10, B = 20, C = 30:
    u1 borrowed A and B, u2 borrowed A and C. *)
Definition example_db : database :=
  mkDatabase
    [mkBorrowing 1 1 10 None None None;
     mkBorrowing 2 1 20 None None None;
     mkBorrowing 3 2 10 None None None;
     mkBorrowing 4 2 30 None None None]
    [mkItem 10 (Some "A") None; mkItem 20 (Some "B") None; mkItem 30 (Some "C") None]
    0 0%Q.

(** Categories stored as NULL, as the empty text, as two spaces and as a
    tab, borrowed 4, 3, 2 and 1 times. *)
Definition blank_db : database :=
  mkDatabase
    [mkBorrowing 1 1 10 None None None; mkBorrowing 2 2 10 None None None;
     mkBorrowing 3 3 10 None None None; mkBorrowing 4 4 10 None None None;
     mkBorrowing 5 1 20 None None None; mkBorrowing 6 2 20 None None None;
     mkBorrowing 7 3 20 None None None;
     mkBorrowing 8 1 30 None None None; mkBorrowing 9 2 30 None None None;
     mkBorrowing 10 1 40 None None None]
    [mkItem 10 (Some "W") None;
     mkItem 20 (Some "X") (Some "");
     mkItem 30 (Some "Y") (Some "  ");
     mkItem 40 (Some "Z") (Some (String "009"%char ""))]
    0 0%Q.

(** The three blank categories of the specification and nothing else:
    NULL borrowed 3 times, the empty text twice, two spaces once. *)
Definition unlabelled_db : database :=
  mkDatabase
    [mkBorrowing 1 1 10 None None None; mkBorrowing 2 2 10 None None None;
     mkBorrowing 3 3 10 None None None;
     mkBorrowing 4 1 20 None None None; mkBorrowing 5 2 20 None None None;
     mkBorrowing 6 1 30 None None None]
    [mkItem 10 (Some "W") None;
     mkItem 20 (Some "X") (Some "");
     mkItem 30 (Some "Y") (Some "  ")]
    0 0%Q.

(** ** A runtime to compute with *)

(** A stable merge sort for ORDER BY, a calendar of 86400-second days and
    30-day months counted from instant 0 with days rendered as numbers, a
    [json.loads] that accepts nothing, and an [int] that reads ASCII
    texts.  The theorems hold for every [Runtime]; this one is for the
    examples. *)
Definition sample_order_by (A : Type) (le : A -> A -> bool) (l : list A) : list A :=
  merge_sort (fun x y => le x y = true)
    (H := fun x y => decide (le x y = true)) l.

Lemma sample_order_by_perm A (le : A -> A -> bool) (l : list A) :
  sample_order_by A le l ≡ₚ l.
Proof. apply merge_sort_Permutation. Qed.

Lemma sample_order_by_sorted A (le : A -> A -> bool) (l : list A) :
  (forall x y, le x y = true \/ le y x = true) ->
  Sorted (fun x y => le x y = true) (sample_order_by A le l).
Proof.
  intros Htot. unfold sample_order_by.
  apply Sorted_merge_sort. exact Htot.
Qed.

#[export] Instance sample_runtime : Runtime := {|
  order_by := sample_order_by;
  order_by_perm := sample_order_by_perm;
  order_by_sorted := sample_order_by_sorted;
  month_start := fun t => t - t mod (30 * 86400);
  day_text := fun t => pretty (t / 86400);
  minus_days := fun t n => t - n * 86400;
  json_loads := fun _ => None;
  py_int := ascii_int
|}.

(** * Properties *)

(** ** The integer parser and the key rendering on examples *)

Example ascii_int_plain : ascii_int "42" = Some 42.
Proof. reflexivity. Qed.
Example ascii_int_negative : ascii_int " -5 " = Some (-5).
Proof. reflexivity. Qed.
Example ascii_int_word : ascii_int "abc" = None.
Proof. reflexivity. Qed.
Example ascii_int_fraction : ascii_int "1.5" = None.
Proof. reflexivity. Qed.
Example ascii_int_empty : ascii_int "" = None.
Proof. reflexivity. Qed.
Example ascii_int_underscore :
  ascii_int "1_000" = Some 1000 /\ ascii_int "1__0" = None
  /\ ascii_int "_1" = None /\ ascii_int "1_" = None.
Proof. repeat split; reflexivity. Qed.
(** Character 31 is not among the whitespace [int] skips. *)
Example ascii_int_unit_separator :
  ascii_int (String "031"%char "7") = None /\ ascii_int (String "009"%char "7") = Some 7.
Proof. split; reflexivity. Qed.

Example py_str_int_examples :
  py_str_int 1 = "1" /\ py_str_int (-5) = "-5" /\ py_str_int 0 = "0" /\ py_str_int 30 = "30".
Proof. repeat split; reflexivity. Qed.

(** ** Running handlers *)

Ltac run :=
  unfold mbind, M_bind, mret, M_ret, cache_get, cache_set, emit, time_time,
    execute, jsonify; simpl.

(** ** The TTL cache *)

Lemma expired_same (now t : Q) : (0 <= t)%Q -> expired now now t = false.
Proof.
  intros Ht. unfold expired.
  apply negb_false_iff, Qle_bool_iff. lra.
Qed.

Lemma expired_after (now ts t : Q) : (t < now - ts)%Q -> expired now ts t = true.
Proof.
  intros Ht. unfold expired.
  apply negb_true_iff. destruct (Qle_bool (now - ts) t) eqn:E; [|reflexivity].
  apply Qle_bool_iff in E. lra.
Qed.

Lemma expired_before (now ts t : Q) : (now - ts <= t)%Q -> expired now ts t = false.
Proof.
  intros Ht. unfold expired. apply negb_false_iff, Qle_bool_iff. exact Ht.
Qed.

(** C3: storing [v] under [k] and reading [k] back at the same clock
    reading with a positive ttl returns [v]; reading it once the clock is
    more than the ttl past the time of storing returns a miss ([None]). *)
Theorem cache_set_then_get (w : world) (k : string) (v : pyval) (t : Q) :
  (0 < t)%Q ->
  (cache_get k t (cache_set k v w).2).1 = v
  /\ (forall now' : Q, (t < now' - w_now w)%Q ->
        (cache_get k t (set_clock now' (cache_set k v w).2)).1 = PNone).
Proof.
  intros Ht. split.
  - run. unfold cache_lookup. rewrite lookup_insert_eq.
    rewrite expired_same by lra. reflexivity.
  - intros now' Hlate. run. unfold cache_lookup. rewrite lookup_insert_eq.
    rewrite expired_after by exact Hlate. reflexivity.
Qed.

Lemma cache_set_then_get_witness :
  let w := mkWorld ∅ 1000%Q [] in
  (cache_get "top-books" 60%Q (cache_set "top-books" (PList [PInt 7]) w).2).1 = PList [PInt 7]
  /\ (forall now' : Q, (60 < now' - w_now w)%Q ->
        (cache_get "top-books" 60%Q
           (set_clock now' (cache_set "top-books" (PList [PInt 7]) w).2)).1 = PNone).
Proof.
  intros w. apply (cache_set_then_get w "top-books" (PList [PInt 7]) 60%Q).
  reflexivity.
Defined.

(** ** The access guard *)

Lemma require_api_key_rejects (cfg : config) (req : request) :
  api_key_unset cfg = false ->
  x_api_key req <> API_KEY cfg ->
  require_api_key cfg req = Some unauthorized.
Proof.
  intros Hset Hne. unfold require_api_key. rewrite Hset.
  destruct (decide (x_api_key req = API_KEY cfg)); [contradiction | reflexivity].
Qed.

Lemma require_api_key_accepts (cfg : config) (req : request) :
  api_key_unset cfg = false ->
  x_api_key req = API_KEY cfg ->
  require_api_key cfg req = None.
Proof.
  intros Hset Heq. unfold require_api_key. rewrite Hset.
  destruct (decide (x_api_key req = API_KEY cfg)); [reflexivity | contradiction].
Qed.

Lemma require_api_key_dev (cfg : config) (req : request) :
  api_key_unset cfg = true -> require_api_key cfg req = None.
Proof. intros Hunset. unfold require_api_key. rewrite Hunset. reflexivity. Qed.

(** C4: when an API key is configured (the guard's own test [not API_KEY]
    fails, that is, the key is set and not empty) and the [X-API-KEY]
    header is missing or differs from it, each of the five protected
    handlers answers 401 with [{"error": "Unauthorized"}] and leaves the
    world as it was: no cache read, no cache write, no query, in the log
    or in the cache.  /health and / answer 200 whatever the configuration
    and the request are, and touch nothing either. *)
Theorem unauthorized_request_does_no_work `{RT : Runtime}
    (cfg : config) (db : database) (req : request) (w : world) :
  api_key_unset cfg = false ->
  x_api_key req <> API_KEY cfg ->
  top_books cfg db req w = (mkResponse 401 (PDict [("error", PStr "Unauthorized")]), w)
  /\ recs cfg db req w = (mkResponse 401 (PDict [("error", PStr "Unauthorized")]), w)
  /\ borrowings_trend cfg db req w = (mkResponse 401 (PDict [("error", PStr "Unauthorized")]), w)
  /\ top_categories cfg db req w = (mkResponse 401 (PDict [("error", PStr "Unauthorized")]), w)
  /\ overdue_stats cfg db req w = (mkResponse 401 (PDict [("error", PStr "Unauthorized")]), w)
  /\ health w = (mkResponse 200 (PDict [("ok", PBool true)]), w)
  /\ (status (root w).1 = 200 /\ (root w).2 = w).
Proof.
  intros Hset Hne.
  pose proof (require_api_key_rejects cfg req Hset Hne) as Hguard.
  unfold top_books, recs, borrowings_trend, top_categories, overdue_stats.
  rewrite Hguard.
  repeat split; reflexivity.
Qed.

Lemma unauthorized_request_does_no_work_witness :
  let cfg := mkConfig (Some "s3cret") in
  let db := mkDatabase [] [] 0 0%Q in
  let req := mkRequest None [("user_id", "1")] in
  let w := mkWorld ∅ 0%Q [] in
  top_books cfg db req w = (mkResponse 401 (PDict [("error", PStr "Unauthorized")]), w)
  /\ recs cfg db req w = (mkResponse 401 (PDict [("error", PStr "Unauthorized")]), w)
  /\ borrowings_trend cfg db req w = (mkResponse 401 (PDict [("error", PStr "Unauthorized")]), w)
  /\ top_categories cfg db req w = (mkResponse 401 (PDict [("error", PStr "Unauthorized")]), w)
  /\ overdue_stats cfg db req w = (mkResponse 401 (PDict [("error", PStr "Unauthorized")]), w)
  /\ health w = (mkResponse 200 (PDict [("ok", PBool true)]), w)
  /\ (status (root w).1 = 200 /\ (root w).2 = w).
Proof.
  intros cfg db req w.
  apply (unauthorized_request_does_no_work cfg db req w).
  - reflexivity.
  - discriminate.
Defined.

(** C10: with [API_KEY] set to the empty string the guard lets every
    request through whatever its header, and each protected handler is
    the very computation it is when [API_KEY] is unset. *)
Theorem empty_api_key_disables_guard `{RT : Runtime} (db : database) (req : request) :
  require_api_key (mkConfig (Some "")) req = None
  /\ require_api_key (mkConfig None) req = None
  /\ top_books (mkConfig (Some "")) db req = top_books (mkConfig None) db req
  /\ recs (mkConfig (Some "")) db req = recs (mkConfig None) db req
  /\ borrowings_trend (mkConfig (Some "")) db req = borrowings_trend (mkConfig None) db req
  /\ top_categories (mkConfig (Some "")) db req = top_categories (mkConfig None) db req
  /\ overdue_stats (mkConfig (Some "")) db req = overdue_stats (mkConfig None) db req.
Proof. repeat split; reflexivity. Qed.

(** ** /recs: the [user_id] parameter *)

Section RecsParameter.
Context `{RT : Runtime}.
Variables (cfg : config) (db : database) (req : request) (w : world).
Hypothesis Hauth : require_api_key cfg req = None.

Lemma recs_rejects_unparsed :
  args_get_int (args req) "user_id" = None ->
  recs cfg db req w = (bad_user_id, w).
Proof. intros Harg. unfold recs. rewrite Hauth, Harg. reflexivity. Qed.

Lemma recs_rejects_zero :
  args_get_int (args req) "user_id" = Some 0 ->
  recs cfg db req w = (bad_user_id, w).
Proof. intros Harg. unfold recs. rewrite Hauth, Harg. reflexivity. Qed.

Lemma recs_accepts_nonzero (n : Z) :
  args_get_int (args req) "user_id" = Some n ->
  n <> 0 ->
  status (recs cfg db req w).1 <> 400
  /\ exists rest, w_log (recs cfg db req w).2 = w_log w ++ EvCacheGet (recs_key n) :: rest.
Proof.
  intros Harg Hn. unfold recs. rewrite Hauth, Harg.
  destruct (n =? 0) eqn:E; [apply Z.eqb_eq in E; contradiction|].
  run. fold (recs_key n).
  destruct (truthy _).
  - simpl. split; [discriminate|]. exists []. reflexivity.
  - destruct (q_user_items db n).
    + simpl. split; [discriminate|]. eexists. rewrite <- app_assoc. reflexivity.
    + destruct (shape_rows _); simpl.
      * split; [discriminate|]. eexists. rewrite <- !app_assoc. reflexivity.
      * split; [discriminate|]. eexists. rewrite <- !app_assoc. reflexivity.
Qed.

End RecsParameter.

(** C2, as the code has it: a request to /recs that passed the guard is
    answered 400 with [{"error": "user_id is required"}], the world
    untouched, when [user_id] is missing, is a text [int] rejects,
    or is zero; with any other integer, negative ones included, the
    handler does not answer 400 and goes on to read the cache under the
    key of that user. *)
Theorem recs_user_id_validation `{RT : Runtime}
    (cfg : config) (db : database) (req : request) (w : world) :
  require_api_key cfg req = None ->
  (args_get (args req) "user_id" = None ->
     recs cfg db req w
     = (mkResponse 400 (PDict [("error", PStr "user_id is required")]), w))
  /\ (forall s, args_get (args req) "user_id" = Some s ->
        py_int s = None \/ py_int s = Some 0 ->
        recs cfg db req w
        = (mkResponse 400 (PDict [("error", PStr "user_id is required")]), w))
  /\ (forall s n, args_get (args req) "user_id" = Some s ->
        py_int s = Some n -> n <> 0 ->
        status (recs cfg db req w).1 <> 400
        /\ exists rest,
             w_log (recs cfg db req w).2 = w_log w ++ EvCacheGet (recs_key n) :: rest).
Proof.
  intros Hauth. split; [|split].
  - intros Hmiss. apply recs_rejects_unparsed; [exact Hauth|].
    unfold args_get_int. rewrite Hmiss. reflexivity.
  - intros s Hs [Hbad | Hzero].
    + apply recs_rejects_unparsed; [exact Hauth|].
      unfold args_get_int. rewrite Hs. exact Hbad.
    + apply recs_rejects_zero; [exact Hauth|].
      unfold args_get_int. rewrite Hs. exact Hzero.
  - intros s n Hs Hint Hn. apply recs_accepts_nonzero; [exact Hauth| |exact Hn].
    unfold args_get_int. rewrite Hs. exact Hint.
Qed.

Lemma recs_user_id_validation_witness :
  let cfg := mkConfig (Some "s3cret") in
  let db := mkDatabase [] [] 0 0%Q in
  let req := mkRequest (Some "s3cret") [("user_id", "abc")] in
  let w := mkWorld ∅ 0%Q [] in
  (args_get (args req) "user_id" = None ->
     recs cfg db req w
     = (mkResponse 400 (PDict [("error", PStr "user_id is required")]), w))
  /\ (forall s, args_get (args req) "user_id" = Some s ->
        py_int s = None \/ py_int s = Some 0 ->
        recs cfg db req w
        = (mkResponse 400 (PDict [("error", PStr "user_id is required")]), w))
  /\ (forall s n, args_get (args req) "user_id" = Some s ->
        py_int s = Some n -> n <> 0 ->
        status (recs cfg db req w).1 <> 400
        /\ exists rest,
             w_log (recs cfg db req w).2 = w_log w ++ EvCacheGet (recs_key n) :: rest).
Proof.
  intros cfg db req w.
  apply (recs_user_id_validation cfg db req w).
  reflexivity.
Defined.

(** The claim C2 as stated fails on a negative [user_id]: the request
    [/recs?user_id=-5], let through by the guard, is answered 200 after a
    cache read and a query. *)
Lemma recs_negative_user_id_not_rejected :
  py_int "-5" = Some (-5)
  /\ recs (mkConfig None) (mkDatabase [] [] 0 0%Q)
        (mkRequest None [("user_id", "-5")]) (mkWorld ∅ 0%Q [])
     = (mkResponse 200 (PList []),
        mkWorld ∅ 0%Q [EvCacheGet "recs:-5"; EvQuery "q_user_items"]).
Proof. split; vm_compute; reflexivity. Qed.

(** The same for every runtime whose [int] reads "-5" as -5. *)
Lemma recs_negative_user_id_any_runtime `{RT : Runtime} :
  py_int "-5" = Some (-5) ->
  recs (mkConfig None) (mkDatabase [] [] 0 0%Q)
    (mkRequest None [("user_id", "-5")]) (mkWorld ∅ 0%Q [])
  = (mkResponse 200 (PList []),
     mkWorld ∅ (0 + 0)%Q [EvCacheGet "recs:-5"; EvQuery "q_user_items"]).
Proof.
  intros Hint. unfold recs, args_get_int. simpl. rewrite Hint. reflexivity.
Qed.

(** ** /recs: a user without history *)

(** C5: when the user named by the request has no borrowing, /recs leaves
    the cache exactly as it was, on every path; and when the request
    passed the guard and found no truthy fresh payload under the user's
    key, the answer is 200 with the empty list, given right after the
    first query: the second query is never sent. *)
Theorem recs_no_history_not_cached `{RT : Runtime}
    (cfg : config) (db : database) (req : request) (w : world) (uid : Z) :
  args_get_int (args req) "user_id" = Some uid ->
  uid <> 0 ->
  q_user_items db uid = [] ->
  w_cache (recs cfg db req w).2 = w_cache w
  /\ (require_api_key cfg req = None ->
      truthy (cached_payload w (recs_key uid) 60%Q) = false ->
      (recs cfg db req w).1 = mkResponse 200 (PList [])
      /\ w_log (recs cfg db req w).2
         = w_log w ++ [EvCacheGet (recs_key uid); EvQuery "q_user_items"]).
Proof.
  intros Harg Hn Hnone. unfold recs. rewrite Harg, Hnone.
  destruct (uid =? 0) eqn:E; [apply Z.eqb_eq in E; contradiction|].
  split.
  - destruct (require_api_key cfg req); [reflexivity|].
    run. destruct (truthy _); reflexivity.
  - intros Hauth Hmiss. rewrite Hauth. run.
    unfold cached_payload, recs_key in Hmiss. rewrite Hmiss. simpl.
    rewrite <- app_assoc. split; reflexivity.
Qed.

Lemma recs_no_history_not_cached_witness :
  let cfg := mkConfig None in
  let db := mkDatabase [mkBorrowing 1 2 10 None None None] [mkItem 10 (Some "A") None] 0 0%Q in
  let req := mkRequest None [("user_id", "1")] in
  let w := mkWorld {[ "recs:2" := (PList [PInt 1], 0%Q) ]} 5%Q [] in
  w_cache (recs cfg db req w).2 = w_cache w
  /\ (require_api_key cfg req = None ->
      truthy (cached_payload w (recs_key 1) 60%Q) = false ->
      (recs cfg db req w).1 = mkResponse 200 (PList [])
      /\ w_log (recs cfg db req w).2
         = w_log w ++ [EvCacheGet (recs_key 1); EvQuery "q_user_items"]).
Proof.
  intros cfg db req w.
  apply (recs_no_history_not_cached cfg db req w 1).
  - reflexivity.
  - lia.
  - reflexivity.
Defined.

(** ** /overdue-stats on an empty table *)

Lemma sum_case_empty (db : database) (cond : borrowing -> bool) :
  borrowings db = [] -> sum_case db cond = None.
Proof. intros Hempty. unfold sum_case. rewrite Hempty. reflexivity. Qed.

Lemma sum_case_nonempty (db : database) (cond : borrowing -> bool) :
  borrowings db <> [] ->
  sum_case db cond = Some (sum_Z ((fun b => if cond b then 1 else 0) <$> borrowings db)).
Proof.
  intros Hne. unfold sum_case. destruct (borrowings db); [contradiction | reflexivity].
Qed.

Lemma sum_Z_zero (l : list Z) : Forall (fun x => x = 0) l -> sum_Z l = 0.
Proof. induction 1 as [|x l Hx _ IH]; simpl; [reflexivity | lia]. Qed.

(** With at least one borrowing and no match, each count is the integer 0. *)
Lemma sum_case_no_match (db : database) (cond : borrowing -> bool) :
  borrowings db <> [] ->
  Forall (fun b => cond b = false) (borrowings db) ->
  sum_case db cond = Some 0.
Proof.
  intros Hne Hall. rewrite sum_case_nonempty by exact Hne. f_equal.
  apply sum_Z_zero. apply Forall_fmap.
  eapply Forall_impl; [exact Hall|]. simpl. intros b Hb. rewrite Hb. reflexivity.
Qed.

(** The part of C1 the code does meet: with at least one borrowing and
    no row matching any of the three conditions, the three fields are the
    integer 0. *)
Lemma overdue_out_no_match `{RT : Runtime} (db : database) :
  borrowings db <> [] ->
  Forall (fun b => is_overdue db b = false) (borrowings db) ->
  Forall (fun b => is_borrowed b = false) (borrowings db) ->
  Forall (fun b => is_returned_this_month db b = false) (borrowings db) ->
  overdue_out db = zero_stats.
Proof.
  intros Hne H1 H2 H3. unfold overdue_out, q_overdue_stats. simpl.
  rewrite !sum_case_no_match by assumption. reflexivity.
Qed.

(** C1 fails on the code: on a store with no borrowing, and nothing cached,
    every SUM is NULL, the one row fetched is truthy, and the handler
    answers with three [None] fields (JSON null), which it also stores in
    the cache.  The all-zero default of line 235 is not reached. *)
Theorem overdue_stats_empty_store_nulls `{RT : Runtime}
    (cfg : config) (its : list item) (now : Z) (lat : Q) (req : request) (t : Q) :
  let db := mkDatabase [] its now lat in
  require_api_key cfg req = None ->
  overdue_stats cfg db req (mkWorld ∅ t [])
  = (mkResponse 200
       (PDict [("overdue_now", PNone); ("borrowed_now", PNone);
               ("returned_this_month", PNone)]),
     mkWorld {[ "overdue-stats" :=
                  (PDict [("overdue_now", PNone); ("borrowed_now", PNone);
                          ("returned_this_month", PNone)], (t + lat)%Q) ]}
             (t + lat)%Q
             [EvCacheGet "overdue-stats"; EvQuery "overdue-stats";
              EvCacheSet "overdue-stats"]).
Proof.
  intros db Hauth. unfold overdue_stats. rewrite Hauth. reflexivity.
Qed.

Lemma overdue_stats_empty_store_nulls_witness :
  overdue_stats (mkConfig None) (mkDatabase [] [] 0 0%Q) (mkRequest None [])
    (mkWorld ∅ 0%Q [])
  = (mkResponse 200
       (PDict [("overdue_now", PNone); ("borrowed_now", PNone);
               ("returned_this_month", PNone)]),
     mkWorld {[ "overdue-stats" :=
                  (PDict [("overdue_now", PNone); ("borrowed_now", PNone);
                          ("returned_this_month", PNone)], (0 + 0)%Q) ]}
             (0 + 0)%Q
             [EvCacheGet "overdue-stats"; EvQuery "overdue-stats";
              EvCacheSet "overdue-stats"]).
Proof.
  apply (overdue_stats_empty_store_nulls (mkConfig None) [] 0 0%Q (mkRequest None []) 0%Q).
  reflexivity.
Defined.

(** ** What every runtime's ORDER BY does *)

Lemma Sorted_weaken {A} (R1 R2 : relation A) (l : list A) :
  (forall x y, R1 x y -> R2 x y) -> Sorted R1 l -> Sorted R2 l.
Proof.
  intros Himp H. induction H as [|x l Hl IH Hhd]; constructor; [exact IH|].
  destruct Hhd; constructor. apply Himp. assumption.
Qed.

Section OrderBy.
Context `{RT : Runtime}.

Lemma order_by_nil {A} (le : A -> A -> bool) : order_by le [] = [].
Proof. apply Permutation_nil_r, order_by_perm. Qed.

Lemma order_by_singleton {A} (le : A -> A -> bool) (x : A) :
  order_by le [x] = [x].
Proof. apply Permutation_singleton_r, order_by_perm. Qed.

Lemma order_by_length {A} (le : A -> A -> bool) (l : list A) :
  length (order_by le l) = length l.
Proof. apply Permutation_length, order_by_perm. Qed.

Lemma order_by_elem_of {A} (le : A -> A -> bool) (l : list A) (x : A) :
  x ∈ order_by le l <-> x ∈ l.
Proof. rewrite (order_by_perm A le l). reflexivity. Qed.

Lemma desc_total {A} (key : A -> Z) (x y : A) :
  desc key x y = true \/ desc key y x = true.
Proof. unfold desc. destruct (Z.leb_spec (key y) (key x)); [left; reflexivity|]. right. apply Z.leb_le. lia. Qed.

Lemma order_by_desc_sorted {A} (key : A -> Z) (l : list A) :
  Sorted (fun x y => key y <= key x) (order_by (desc key) l).
Proof.
  eapply Sorted_weaken; [| apply order_by_sorted, desc_total].
  intros x y Hxy. unfold desc in Hxy. apply Z.leb_le. exact Hxy.
Qed.

End OrderBy.

Lemma HdRel_take {A} (R : relation A) (x : A) (l : list A) (n : nat) :
  HdRel R x l -> HdRel R x (take n l).
Proof. intros H. destruct H, n; simpl; constructor; assumption. Qed.

Lemma Sorted_take {A} (R : relation A) (l : list A) (n : nat) :
  Sorted R l -> Sorted R (take n l).
Proof.
  intros H. revert n. induction H as [|x l Hl IH Hhd]; intros [|n]; simpl;
    try constructor; auto using HdRel_take.
Qed.

(** ** /recs: the shape of a recommendation *)

Section RecsShape.
Context `{RT : Runtime}.

Lemma titles_of_reasons (rs : list reason) :
  titles_of (reason_py <$> rs) = (fun x => py_text x.1.2) <$> rs.
Proof. induction rs as [|x rs IH]; simpl; [reflexivity|]. f_equal. exact IH. Qed.

Lemma shape_row_recs_row (g : Z * option string * Z * list rec_join) :
  shape_row (recs_row g) = Some (shaped g).
Proof.
  unfold shape_row, recs_row, shaped. simpl.
  replace (reason_object <$> reasons_of g.2)
    with (reason_py <$> (reason_of_join <$> reasons_of g.2))
    by (rewrite <- list_fmap_compose; reflexivity).
  set (rs := reason_of_join <$> reasons_of g.2).
  assert (Hrs : (if match reason_py <$> rs with [] => false | _ => true end
                 then PList (reason_py <$> rs) else PList [])
                = PList (reason_py <$> rs)).
  { destruct rs; reflexivity. }
  rewrite Hrs. simpl. rewrite <- fmap_take, titles_of_reasons. reflexivity.
Qed.

Lemma shape_rows_q_recs (db : database) (uid : Z) :
  shape_rows (q_recs db uid) = Some (shaped <$> recs_groups db uid).
Proof.
  unfold shape_rows, q_recs. apply mapM_Some_2.
  induction (recs_groups db uid) as [|g gs IH]; simpl; constructor;
    [apply shape_row_recs_row | exact IH].
Qed.

Lemma shaped_ok (g : Z * option string * Z * list rec_join) :
  recommendation_ok (shaped g).
Proof.
  exists (reason_of_join <$> reasons_of g.2).
  assert (Hsorted : Sorted (fun x y : reason => y.2 <= x.2)
                      (reason_of_join <$> reasons_of g.2)).
  { eapply Sorted_fmap; [| apply order_by_desc_sorted].
    intros x y Hxy. exact Hxy. }
  split; [|split; [|split]].
  - unfold shaped, recs_row. simpl.
    rewrite <- list_fmap_compose. reflexivity.
  - reflexivity.
  - exact Hsorted.
  - apply Sorted_take. exact Hsorted.
Qed.

End RecsShape.

(** ** /recs on the path that queries the store *)

Section RecsMiss.
Context `{RT : Runtime}.
Variables (cfg : config) (db : database) (req : request) (w : world) (uid : Z).
Hypothesis Hauth : require_api_key cfg req = None.
Hypothesis Harg : args_get_int (args req) "user_id" = Some uid.
Hypothesis Hn : uid <> 0.
Hypothesis Hmiss : truthy (cached_payload w (recs_key uid) 60%Q) = false.

Lemma recs_miss_no_history :
  q_user_items db uid = [] ->
  recs cfg db req w
  = (mkResponse 200 (PList []),
     mkWorld (w_cache w) (w_now w + db_latency db)%Q
       (w_log w ++ [EvCacheGet (recs_key uid); EvQuery "q_user_items"])).
Proof.
  intros Hnone. unfold recs. rewrite Hauth, Harg, Hnone.
  destruct (uid =? 0) eqn:E; [apply Z.eqb_eq in E; contradiction|].
  run. unfold cached_payload, recs_key in Hmiss. rewrite Hmiss. simpl.
  rewrite <- app_assoc. reflexivity.
Qed.

Lemma recs_miss_history :
  q_user_items db uid <> [] ->
  recs cfg db req w
  = (mkResponse 200 (json_rows (shaped <$> recs_groups db uid)),
     mkWorld
       (<[recs_key uid := (json_rows (shaped <$> recs_groups db uid),
                           (w_now w + db_latency db + db_latency db)%Q)]> (w_cache w))
       (w_now w + db_latency db + db_latency db)%Q
       (w_log w ++ [EvCacheGet (recs_key uid); EvQuery "q_user_items";
                    EvQuery "q_recs"; EvCacheSet (recs_key uid)])).
Proof.
  intros Hsome. unfold recs. rewrite Hauth, Harg.
  destruct (uid =? 0) eqn:E; [apply Z.eqb_eq in E; contradiction|].
  destruct (q_user_items db uid) as [|x xs] eqn:Hitems; [contradiction|].
  rewrite shape_rows_q_recs.
  run. unfold cached_payload, recs_key in Hmiss. rewrite Hmiss. simpl.
  rewrite <- !app_assoc. reflexivity.
Qed.

End RecsMiss.

(** C7: whenever /recs answers from the store (the request passed the
    guard, names a user, and found no truthy fresh payload cached), the
    answer is 200 with a list of rows, and in every row [because] is the
    list of titles of the first two entries of [reasons] (of all of them
    when there are fewer), [reasons] is in descending order of count, and
    so is the prefix [because] is read from. *)
Theorem recs_because_prefix_of_reasons `{RT : Runtime}
    (cfg : config) (db : database) (req : request) (w : world) (uid : Z) :
  require_api_key cfg req = None ->
  args_get_int (args req) "user_id" = Some uid ->
  uid <> 0 ->
  truthy (cached_payload w (recs_key uid) 60%Q) = false ->
  exists rows : list pydict,
    (recs cfg db req w).1 = mkResponse 200 (json_rows rows)
    /\ Forall recommendation_ok rows.
Proof.
  intros Hauth Harg Hn Hmiss.
  destruct (q_user_items db uid) as [|x xs] eqn:Hitems.
  - exists []. rewrite (recs_miss_no_history cfg db req w uid) by assumption.
    split; [reflexivity | constructor].
  - exists (shaped <$> recs_groups db uid).
    rewrite (recs_miss_history cfg db req w uid) by (assumption || congruence).
    split; [reflexivity|].
    apply Forall_fmap, Forall_forall. intros g _. apply shaped_ok.
Qed.

(** ** The example of the specification *)

Example example_user_items : q_user_items example_db 1 = [10; 20].
Proof. reflexivity. Qed.

Example example_co :
  co example_db 1 = [mkCo 20 10 1; mkCo 10 20 1; mkCo 30 10 1].
Proof. reflexivity. Qed.

Example example_scores : scores example_db 1 = [(20, 1); (10, 1); (30, 1)].
Proof. reflexivity. Qed.

Section Example.
Context `{RT : Runtime}.

Lemma example_filtered : filtered example_db 1 = [(30, 1)].
Proof.
  unfold filtered.
  replace (filter (fun s => s.1 ∉ q_user_items example_db 1) (scores example_db 1))
    with [(30, 1)] by reflexivity.
  rewrite order_by_singleton. reflexivity.
Qed.

Lemma example_joined :
  recs_joined example_db 1
  = [mkJoin (30, 1) (mkCo 30 10 1) (mkItem 30 (Some "C") None) (mkItem 10 (Some "A") None)].
Proof. unfold recs_joined. rewrite example_filtered. reflexivity. Qed.

Lemma example_groups :
  recs_groups example_db 1
  = [(30, Some "C", 1,
      [mkJoin (30, 1) (mkCo 30 10 1) (mkItem 30 (Some "C") None) (mkItem 10 (Some "A") None)])].
Proof.
  unfold recs_groups. rewrite example_joined.
  replace (group_by _ _) with [(30, Some "C", 1,
      [mkJoin (30, 1) (mkCo 30 10 1) (mkItem 30 (Some "C") None) (mkItem 10 (Some "A") None)])]
    by reflexivity.
  rewrite order_by_singleton. reflexivity.
Qed.

Lemma example_shaped :
  shaped <$> recs_groups example_db 1
  = [[("id", PInt 30); ("name", PStr "C"); ("score", PInt 1);
      ("reasons", PList [PDict [("item_id", PInt 10); ("title", PStr "A"); ("count", PInt 1)]]);
      ("because", PList [PStr "A"])]].
Proof.
  rewrite example_groups. unfold shaped, recs_row, reasons_of. simpl.
  rewrite order_by_singleton. reflexivity.
Qed.

End Example.

(** C6: on the borrowings u1->A, u1->B, u2->A, u2->C with titles "A", "B",
    "C", a request /recs?user_id=1 that is answered from the store gets
    exactly one recommendation: item C with score 1, the single reason
    (item A, title "A", count 1), and because = ["A"]. *)
Theorem recs_example_surfaces_item_C `{RT : Runtime}
    (cfg : config) (req : request) (w : world) :
  require_api_key cfg req = None ->
  args_get_int (args req) "user_id" = Some 1 ->
  truthy (cached_payload w (recs_key 1) 60%Q) = false ->
  (recs cfg example_db req w).1
  = mkResponse 200
      (PList [PDict [("id", PInt 30); ("name", PStr "C"); ("score", PInt 1);
                     ("reasons", PList [PDict [("item_id", PInt 10);
                                               ("title", PStr "A");
                                               ("count", PInt 1)]]);
                     ("because", PList [PStr "A"])]]).
Proof.
  intros Hauth Harg Hmiss.
  rewrite (recs_miss_history cfg example_db req w 1);
    [| assumption | assumption | lia | assumption | discriminate].
  rewrite example_shaped. reflexivity.
Qed.

Lemma recs_example_surfaces_item_C_witness :
  (recs (mkConfig None) example_db (mkRequest None [("user_id", "1")])
     (mkWorld ∅ 0%Q [])).1
  = mkResponse 200
      (PList [PDict [("id", PInt 30); ("name", PStr "C"); ("score", PInt 1);
                     ("reasons", PList [PDict [("item_id", PInt 10);
                                               ("title", PStr "A");
                                               ("count", PInt 1)]]);
                     ("because", PList [PStr "A"])]]).
Proof.
  apply (recs_example_surfaces_item_C (mkConfig None)
           (mkRequest None [("user_id", "1")]) (mkWorld ∅ 0%Q []));
    reflexivity.
Defined.

Lemma recs_because_prefix_of_reasons_witness :
  exists rows : list pydict,
    (recs (mkConfig None) example_db (mkRequest None [("user_id", "1")])
       (mkWorld ∅ 0%Q [])).1 = mkResponse 200 (json_rows rows)
    /\ Forall recommendation_ok rows.
Proof.
  apply (recs_because_prefix_of_reasons (mkConfig None) example_db
           (mkRequest None [("user_id", "1")]) (mkWorld ∅ 0%Q []) 1).
  - reflexivity.
  - reflexivity.
  - lia.
  - reflexivity.
Defined.

(** The sample runtime computes the same answer, cache and log included. *)
Example recs_example_run :
  recs (mkConfig None) example_db (mkRequest None [("user_id", "1")]) (mkWorld ∅ 0%Q [])
  = (mkResponse 200
       (PList [PDict [("id", PInt 30); ("name", PStr "C"); ("score", PInt 1);
                      ("reasons", PList [PDict [("item_id", PInt 10);
                                                ("title", PStr "A");
                                                ("count", PInt 1)]]);
                      ("because", PList [PStr "A"])]]),
     mkWorld
       {[ "recs:1" :=
            (PList [PDict [("id", PInt 30); ("name", PStr "C"); ("score", PInt 1);
                           ("reasons", PList [PDict [("item_id", PInt 10);
                                                     ("title", PStr "A");
                                                     ("count", PInt 1)]]);
                           ("because", PList [PStr "A"])]], 0%Q) ]}
       0%Q
       [EvCacheGet "recs:1"; EvQuery "q_user_items"; EvQuery "q_recs"; EvCacheSet "recs:1"]).
Proof. vm_compute. reflexivity. Qed.

(** ** Falsy payloads in the cache *)

Lemma falsy_entry_is_miss (w : world) (k : string) (ttl : Q) (p : pyval) (ts : Q) :
  w_cache w !! k = Some (p, ts) ->
  truthy p = false ->
  truthy (cached_payload w k ttl) = false.
Proof.
  intros Hk Hp. unfold cached_payload, cache_lookup. rewrite Hk.
  destruct (expired _ _ _); [reflexivity | exact Hp].
Qed.

Section Miss.
Context `{RT : Runtime}.
Variables (cfg : config) (db : database) (req : request) (w : world).
Hypothesis Hauth : require_api_key cfg req = None.

Ltac miss H :=
  rewrite Hauth; run; unfold cached_payload in H; rewrite H; simpl;
  unfold recomputed; rewrite <- !app_assoc; reflexivity.

Lemma top_books_miss :
  truthy (cached_payload w "top-books" 60%Q) = false ->
  top_books cfg db req w
  = recomputed db w "top-books" "top-books" (json_rows (q_top_books db)).
Proof. intros H. unfold top_books. miss H. Qed.

Lemma borrowings_trend_miss :
  truthy (cached_payload w ("borrowings-trend:" +:+ py_str_int (days_arg req)) 120%Q) = false ->
  borrowings_trend cfg db req w
  = recomputed db w ("borrowings-trend:" +:+ py_str_int (days_arg req)) "borrowings-trend"
      (json_rows (q_borrowings_trend db (days_arg req))).
Proof. intros H. unfold borrowings_trend. miss H. Qed.

Lemma top_categories_miss :
  truthy (cached_payload w "top-categories" 300%Q) = false ->
  top_categories cfg db req w
  = recomputed db w "top-categories" "top-categories" (json_rows (q_top_categories db)).
Proof. intros H. unfold top_categories. miss H. Qed.

Lemma overdue_stats_miss :
  truthy (cached_payload w "overdue-stats" 60%Q) = false ->
  overdue_stats cfg db req w
  = recomputed db w "overdue-stats" "overdue-stats" (PDict (overdue_out db)).
Proof. intros H. unfold overdue_stats. miss H. Qed.

End Miss.

(** C9, as the code has it: a payload stored in the cache that is falsy
    (an empty list, for one) is never served, fresh or not.  /top-books,
    /borrowings-trend, /top-categories and /overdue-stats then query the
    store, answer with the new result and store it over the entry.  So
    does /recs for a user with history; for a user without history /recs
    answers [] after its first query and leaves the cache, the falsy
    entry included, as it was. *)
Theorem falsy_cached_payload_is_recomputed `{RT : Runtime}
    (cfg : config) (db : database) (req : request) (w : world) :
  require_api_key cfg req = None ->
  (forall p ts, w_cache w !! "top-books" = Some (p, ts) -> truthy p = false ->
     top_books cfg db req w
     = recomputed db w "top-books" "top-books" (json_rows (q_top_books db)))
  /\ (forall p ts,
        w_cache w !! ("borrowings-trend:" +:+ py_str_int (days_arg req)) = Some (p, ts) ->
        truthy p = false ->
        borrowings_trend cfg db req w
        = recomputed db w ("borrowings-trend:" +:+ py_str_int (days_arg req))
            "borrowings-trend" (json_rows (q_borrowings_trend db (days_arg req))))
  /\ (forall p ts, w_cache w !! "top-categories" = Some (p, ts) -> truthy p = false ->
        top_categories cfg db req w
        = recomputed db w "top-categories" "top-categories"
            (json_rows (q_top_categories db)))
  /\ (forall p ts, w_cache w !! "overdue-stats" = Some (p, ts) -> truthy p = false ->
        overdue_stats cfg db req w
        = recomputed db w "overdue-stats" "overdue-stats" (PDict (overdue_out db)))
  /\ (forall uid p ts,
        args_get_int (args req) "user_id" = Some uid -> uid <> 0 ->
        w_cache w !! recs_key uid = Some (p, ts) -> truthy p = false ->
        (q_user_items db uid <> [] ->
           recs cfg db req w
           = (mkResponse 200 (json_rows (shaped <$> recs_groups db uid)),
              mkWorld
                (<[recs_key uid := (json_rows (shaped <$> recs_groups db uid),
                                    (w_now w + db_latency db + db_latency db)%Q)]>
                   (w_cache w))
                (w_now w + db_latency db + db_latency db)%Q
                (w_log w ++ [EvCacheGet (recs_key uid); EvQuery "q_user_items";
                             EvQuery "q_recs"; EvCacheSet (recs_key uid)])))
        /\ (q_user_items db uid = [] ->
              recs cfg db req w
              = (mkResponse 200 (PList []),
                 mkWorld (w_cache w) (w_now w + db_latency db)%Q
                   (w_log w ++ [EvCacheGet (recs_key uid); EvQuery "q_user_items"])))).
Proof.
  intros Hauth. repeat apply conj.
  - intros p ts Hk Hp. apply top_books_miss; eauto using falsy_entry_is_miss.
  - intros p ts Hk Hp. apply borrowings_trend_miss; eauto using falsy_entry_is_miss.
  - intros p ts Hk Hp. apply top_categories_miss; eauto using falsy_entry_is_miss.
  - intros p ts Hk Hp. apply overdue_stats_miss; eauto using falsy_entry_is_miss.
  - intros uid p ts Harg Hn Hk Hp. split; intros Hitems.
    + apply recs_miss_history; eauto using falsy_entry_is_miss.
    + apply recs_miss_no_history; eauto using falsy_entry_is_miss.
Qed.

(** ** Counting through GROUP BY *)

Lemma sum_Z_add {A} (f g : A -> Z) (l : list A) :
  sum_Z ((fun x => f x + g x) <$> l) = sum_Z (f <$> l) + sum_Z (g <$> l).
Proof.
  induction l as [|x l IH]; [reflexivity|].
  csimpl. unfold sum_Z in *. cbn [foldr]. rewrite IH. lia.
Qed.

Lemma sum_Z_const_zero {A} (l : list A) : sum_Z ((fun _ => 0) <$> l) = 0.
Proof. unfold sum_Z. induction l as [|x l IH]; simpl; [reflexivity | exact IH]. Qed.

Lemma filter_fmap_comm {A B} (f : A -> B) (P : B -> Prop) `{forall b, Decision (P b)}
    (l : list A) :
  filter P (f <$> l) = f <$> filter (fun a => P (f a)) l.
Proof.
  induction l as [|x l IH]; [reflexivity|]. csimpl.
  rewrite !filter_cons. destruct (decide (P (f x))); csimpl; rewrite IH; reflexivity.
Qed.

Section Counting.
Context {A K : Type} `{EqDecision K}.
Variable key : A -> K.

(** Among distinct keys exactly one equals the key of a row. *)
Lemma sum_indicator (a : K) (ks : list K) :
  NoDup ks ->
  sum_Z ((fun k => if decide (a = k) then 1 else 0) <$> ks)
  = if decide (a ∈ ks) then 1 else 0.
Proof.
  induction 1 as [|k ks Hk Hnd IH].
  - destruct (decide (a ∈ [])) as [Hin|]; [inversion Hin | reflexivity].
  - csimpl. unfold sum_Z in *. cbn [foldr]. rewrite IH.
    destruct (decide (a = k)) as [->|Hne].
    + rewrite (decide_False (P := k ∈ ks)) by exact Hk.
      rewrite decide_True by left. reflexivity.
    + destruct (decide (a ∈ ks)) as [Hin|Hnin].
      * rewrite decide_True by (right; exact Hin). reflexivity.
      * rewrite decide_False; [reflexivity|].
        intros Hin. apply elem_of_cons in Hin as [?|?]; contradiction.
Qed.

Lemma count_filter_cons (k : K) (r : A) (rows : list A) :
  sql_count (filter (fun x => key x = k) (r :: rows))
  = (if decide (key r = k) then 1 else 0) + sql_count (filter (fun x => key x = k) rows).
Proof.
  unfold sql_count. rewrite filter_cons.
  destruct (decide (key r = k)); simpl length; lia.
Qed.

(** The groups selected by a condition on the key hold, together, the rows
    that satisfy it. *)
Lemma group_counts_add_up (P : K -> Prop) `{forall k, Decision (P k)}
    (ks : list K) (rows : list A) :
  NoDup ks ->
  Forall (fun r => key r ∈ ks) rows ->
  sum_Z ((fun k => sql_count (filter (fun r => key r = k) rows)) <$> filter P ks)
  = sql_count (filter (fun r => P (key r)) rows).
Proof.
  intros Hnd. induction 1 as [|r rows Hr Hrows IH].
  - apply sum_Z_const_zero.
  - rewrite (list_fmap_ext _
               (fun k => (if decide (key r = k) then 1 else 0)
                         + sql_count (filter (fun x => key x = k) rows)))
      by (intros i k _; apply count_filter_cons).
    rewrite sum_Z_add, IH.
    rewrite sum_indicator by (apply NoDup_filter; exact Hnd).
    unfold sql_count. rewrite filter_cons.
    destruct (decide (P (key r))) as [HP|HP].
    + rewrite decide_True by (apply list_elem_of_filter; split; assumption).
      simpl length. lia.
    + rewrite decide_False; [lia|].
      intros Hin. apply list_elem_of_filter in Hin as [? _]. contradiction.
Qed.

Lemma group_by_counts (P : K -> Prop) `{forall k, Decision (P k)} (rows : list A) :
  sum_Z ((fun g => sql_count g.2) <$> filter (fun g => P g.1) (group_by key rows))
  = sql_count (filter (fun r => P (key r)) rows).
Proof.
  unfold group_by. rewrite filter_fmap_comm. simpl.
  rewrite <- list_fmap_compose.
  rewrite <- (group_counts_add_up P (remove_dups (key <$> rows)) rows).
  - reflexivity.
  - apply NoDup_remove_dups.
  - apply Forall_forall. intros r Hr.
    apply elem_of_remove_dups, list_elem_of_fmap. exists r. split; [reflexivity | exact Hr].
Qed.

End Counting.

(** ** /top-categories *)

Lemma ltrim_spaces (s : string) :
  Forall (fun ch => ch = " "%char) (list_ascii_of_string s) -> ltrim s = "".
Proof.
  induction s as [|c s IH]; simpl; intros Hall; [reflexivity|].
  inversion Hall as [|? ? Hc Hs]; subst. simpl. apply IH. exact Hs.
Qed.

Lemma category_label_blank (c : option string) :
  blank_category c -> category_label c = "Uncategorised".
Proof.
  destruct c as [s|]; simpl; intros Hblank; [|reflexivity].
  unfold category_label, sql_trim, trim. simpl.
  rewrite (ltrim_spaces s Hblank). reflexivity.
Qed.

Section TopCategories.
Context `{RT : Runtime}.
Variable db : database.

Lemma top_categories_label_counts (L : string) :
  sum_Z (snd <$> filter (fun r => r.1 = L) (top_categories_groups db))
  = sql_count (filter (fun bi => category_label (i_category bi.2) = L)
                 (borrowed_items db)).
Proof.
  unfold top_categories_groups.
  rewrite filter_fmap_comm, <- list_fmap_compose.
  exact (group_by_counts (fun bi : borrowing * item => i_category bi.2)
           (fun k => category_label k = L) (borrowed_items db)).
Qed.

Lemma top_categories_rows_sorted :
  Sorted (fun x y : string * Z => y.2 <= x.2) (top_categories_rows db).
Proof. apply Sorted_take, order_by_desc_sorted. Qed.

Lemma top_categories_rows_length : (length (top_categories_rows db) <= 6)%nat.
Proof. unfold top_categories_rows. rewrite length_take. lia. Qed.

End TopCategories.

(** X20: the label of a category that is NULL, empty
    or made of space characters only is "Uncategorised"; for every label,
    the counts of the grouped rows that carry it add up to the number of
    borrowings whose item has that label, so every borrowing of such an
    item is counted under "Uncategorised"; and the result is the first six
    rows, at most, of the grouped rows put in descending order of count. *)
Theorem top_categories_counts_blank_as_uncategorised `{RT : Runtime} (db : database) :
  (forall c, blank_category c -> category_label c = "Uncategorised")
  /\ (forall L,
        sum_Z (snd <$> filter (fun r => r.1 = L) (top_categories_groups db))
        = sql_count (filter (fun bi => category_label (i_category bi.2) = L)
                       (borrowed_items db)))
  /\ (exists sorted : list (string * Z),
        sorted ≡ₚ top_categories_groups db
        /\ Sorted (fun x y => y.2 <= x.2) sorted
        /\ top_categories_rows db = take 6 sorted)
  /\ Sorted (fun x y => y.2 <= x.2) (top_categories_rows db)
  /\ (length (top_categories_rows db) <= 6)%nat
  /\ (forall cfg req w,
        require_api_key cfg req = None ->
        truthy (cached_payload w "top-categories" 300%Q) = false ->
        (top_categories cfg db req w).1
        = mkResponse 200
            (json_rows ((fun r => [("category", PStr r.1); ("count", PInt r.2)])
                          <$> top_categories_rows db))).
Proof.
  split; [exact category_label_blank|].
  split; [exact (top_categories_label_counts db)|].
  split.
  { exists (order_by (desc snd) (top_categories_groups db)).
    split; [apply order_by_perm|].
    split; [apply order_by_desc_sorted | reflexivity]. }
  split; [apply top_categories_rows_sorted|].
  split; [apply top_categories_rows_length|].
  intros cfg req w Hauth Hmiss.
  rewrite (top_categories_miss cfg db req w Hauth Hmiss). reflexivity.
Qed.

Lemma blank_db_groups :
  top_categories_groups blank_db
  = [("Uncategorised", 4); ("Uncategorised", 3); ("Uncategorised", 2);
     (String "009"%char "", 1)].
Proof. reflexivity. Qed.

(** The four counts differ, so every runtime orders the rows alike. *)
Lemma blank_db_rows `{RT : Runtime} :
  top_categories_rows blank_db
  = [("Uncategorised", 4); ("Uncategorised", 3); ("Uncategorised", 2);
     (String "009"%char "", 1)].
Proof.
  unfold top_categories_rows. rewrite blank_db_groups.
  set (l := [("Uncategorised", 4); ("Uncategorised", 3); ("Uncategorised", 2);
             (String "009"%char "", 1)]).
  assert (Htrans : Transitive (fun x y : string * Z => y.2 <= x.2)).
  { intros x y z Hxy Hyz. lia. }
  assert (Heq : order_by (desc snd) l = l).
  { apply (Sorted_unique_strong (fun x y : string * Z => y.2 <= x.2)).
    - intros x1 x2 H1 H2 H12 H21.
      apply order_by_elem_of in H1. subst l.
      repeat (apply elem_of_cons in H1 as [->|H1]);
        repeat (apply elem_of_cons in H2 as [->|H2]);
        try reflexivity; try (simpl in *; lia);
        try (apply elem_of_nil in H1; contradiction);
        try (apply elem_of_nil in H2; contradiction).
    - apply order_by_desc_sorted.
    - subst l. repeat constructor; simpl; lia.
    - apply order_by_perm. }
  rewrite Heq. reflexivity.
Qed.

(** On [blank_db], whatever the runtime: the category that is a tab,
    whitespace though it is, keeps its own label (TRIM removes spaces
    only); and the three blank categories come as three rows labelled
    "Uncategorised", not as one row of count 9. *)
Lemma top_categories_blank_not_one_row :
  category_label (Some (String "009"%char "")) = String "009"%char ""
  /\ (forall RT : Runtime,
        @top_categories_rows RT blank_db
        = [("Uncategorised", 4); ("Uncategorised", 3); ("Uncategorised", 2);
           (String "009"%char "", 1)])
  /\ (forall RT : Runtime,
        (@top_categories RT (mkConfig None) blank_db (mkRequest None [])
           (mkWorld ∅ 0%Q [])).1
        = mkResponse 200
            (PList [PDict [("category", PStr "Uncategorised"); ("count", PInt 4)];
                    PDict [("category", PStr "Uncategorised"); ("count", PInt 3)];
                    PDict [("category", PStr "Uncategorised"); ("count", PInt 2)];
                    PDict [("category", PStr (String "009"%char "")); ("count", PInt 1)]])).
Proof.
  split; [reflexivity|]. split.
  - intros RT. apply blank_db_rows.
  - intros RT.
    rewrite (top_categories_miss (mkConfig None) blank_db (mkRequest None [])
               (mkWorld ∅ 0%Q [])) by reflexivity.
    unfold recomputed, q_top_categories. rewrite blank_db_rows. reflexivity.
Qed.

Lemma top_categories_counts_blank_as_uncategorised_witness :
  sum_Z (snd <$> filter (fun r => r.1 = "Uncategorised") (top_categories_groups blank_db)) = 9
  /\ Sorted (fun x y : string * Z => y.2 <= x.2) (top_categories_rows blank_db).
Proof.
  destruct (top_categories_counts_blank_as_uncategorised blank_db)
    as (_ & Hcount & _ & Hsorted & _).
  split; [|exact Hsorted].
  rewrite (Hcount "Uncategorised"). reflexivity.
Defined.

(** ** Falsy payloads: an instance and the exception *)

Lemma falsy_cached_payload_is_recomputed_witness :
  top_books (mkConfig None) example_db (mkRequest None [])
    (mkWorld {[ "top-books" := (PList [], 0%Q) ]} 10%Q [])
  = recomputed example_db (mkWorld {[ "top-books" := (PList [], 0%Q) ]} 10%Q [])
      "top-books" "top-books" (json_rows (q_top_books example_db)).
Proof.
  destruct (falsy_cached_payload_is_recomputed (mkConfig None) example_db
              (mkRequest None [])
              (mkWorld {[ "top-books" := (PList [], 0%Q) ]} 10%Q []) eq_refl)
    as [Htop _].
  apply (Htop (PList []) 0%Q); reflexivity.
Defined.

(** The claim C9 as stated fails for /recs: with the empty list stored
    under the key of a user who has no borrowing, the handler answers []
    and the entry is still the one stored at time 0 although the clock
    reads 10: it was not overwritten. *)
Lemma recs_falsy_entry_not_overwritten :
  let w := mkWorld {[ "recs:1" := (PList [], 0%Q) ]} 10%Q [] in
  let out := recs (mkConfig None) (mkDatabase [] [] 0 0%Q)
               (mkRequest None [("user_id", "1")]) w in
  out.1 = mkResponse 200 (PList [])
  /\ w_cache out.2 = w_cache w
  /\ w_cache out.2 !! "recs:1" = Some (PList [], 0%Q)
  /\ w_log out.2 = [EvCacheGet "recs:1"; EvQuery "q_user_items"].
Proof. repeat split; vm_compute; reflexivity. Qed.

(** * Further properties of the handlers *)

(** ** Serving from the cache *)

Section Hit.
Context `{RT : Runtime}.
Variables (cfg : config) (db : database) (req : request) (w : world).
Hypothesis Hauth : require_api_key cfg req = None.

Ltac hit H :=
  rewrite Hauth; run; unfold cached_payload in H; rewrite H; simpl; reflexivity.

Lemma top_books_hit :
  truthy (cached_payload w "top-books" 60%Q) = true ->
  top_books cfg db req w
  = (mkResponse 200 (cached_payload w "top-books" 60%Q),
     mkWorld (w_cache w) (w_now w) (w_log w ++ [EvCacheGet "top-books"])).
Proof. intros H. unfold top_books. hit H. Qed.

Lemma borrowings_trend_hit :
  truthy (cached_payload w ("borrowings-trend:" +:+ py_str_int (days_arg req)) 120%Q) = true ->
  borrowings_trend cfg db req w
  = (mkResponse 200
       (cached_payload w ("borrowings-trend:" +:+ py_str_int (days_arg req)) 120%Q),
     mkWorld (w_cache w) (w_now w)
       (w_log w ++ [EvCacheGet ("borrowings-trend:" +:+ py_str_int (days_arg req))])).
Proof. intros H. unfold borrowings_trend. hit H. Qed.

Lemma top_categories_hit :
  truthy (cached_payload w "top-categories" 300%Q) = true ->
  top_categories cfg db req w
  = (mkResponse 200 (cached_payload w "top-categories" 300%Q),
     mkWorld (w_cache w) (w_now w) (w_log w ++ [EvCacheGet "top-categories"])).
Proof. intros H. unfold top_categories. hit H. Qed.

Lemma overdue_stats_hit :
  truthy (cached_payload w "overdue-stats" 60%Q) = true ->
  overdue_stats cfg db req w
  = (mkResponse 200 (cached_payload w "overdue-stats" 60%Q),
     mkWorld (w_cache w) (w_now w) (w_log w ++ [EvCacheGet "overdue-stats"])).
Proof. intros H. unfold overdue_stats. hit H. Qed.

Lemma recs_hit (uid : Z) :
  args_get_int (args req) "user_id" = Some uid ->
  uid <> 0 ->
  truthy (cached_payload w (recs_key uid) 60%Q) = true ->
  recs cfg db req w
  = (mkResponse 200 (cached_payload w (recs_key uid) 60%Q),
     mkWorld (w_cache w) (w_now w) (w_log w ++ [EvCacheGet (recs_key uid)])).
Proof.
  intros Harg Hn H. unfold recs. rewrite Hauth, Harg.
  destruct (uid =? 0) eqn:E; [apply Z.eqb_eq in E; contradiction|].
  run. unfold cached_payload, recs_key in H. rewrite H. reflexivity.
Qed.

End Hit.

(** A stored entry that is within its ttl and truthy is what the lookup
    gives. *)
Lemma fresh_entry_is_hit (w : world) (k : string) (ttl : Q) (p : pyval) (ts : Q) :
  w_cache w !! k = Some (p, ts) ->
  (w_now w - ts <= ttl)%Q ->
  cached_payload w k ttl = p.
Proof.
  intros Hk Hfresh. unfold cached_payload, cache_lookup. rewrite Hk.
  rewrite expired_before by exact Hfresh. reflexivity.
Qed.

(** X1: a request that passed the guard and finds, under the key of its
    endpoint, a truthy payload no older than the endpoint's ttl (60 s for
    /top-books, /recs and /overdue-stats, 120 s for /borrowings-trend,
    300 s for /top-categories) is answered 200 with that payload, whatever
    the store holds; the store is not queried and the cache is not
    written. *)
Theorem fresh_payload_served_without_query `{RT : Runtime}
    (cfg : config) (db : database) (req : request) (w : world) (p : pyval) (ts : Q) :
  require_api_key cfg req = None ->
  truthy p = true ->
  (w_cache w !! "top-books" = Some (p, ts) -> (w_now w - ts <= 60)%Q ->
     top_books cfg db req w
     = (mkResponse 200 p,
        mkWorld (w_cache w) (w_now w) (w_log w ++ [EvCacheGet "top-books"])))
  /\ (w_cache w !! ("borrowings-trend:" +:+ py_str_int (days_arg req)) = Some (p, ts) ->
      (w_now w - ts <= 120)%Q ->
      borrowings_trend cfg db req w
      = (mkResponse 200 p,
         mkWorld (w_cache w) (w_now w)
           (w_log w ++ [EvCacheGet ("borrowings-trend:" +:+ py_str_int (days_arg req))])))
  /\ (w_cache w !! "top-categories" = Some (p, ts) -> (w_now w - ts <= 300)%Q ->
      top_categories cfg db req w
      = (mkResponse 200 p,
         mkWorld (w_cache w) (w_now w) (w_log w ++ [EvCacheGet "top-categories"])))
  /\ (w_cache w !! "overdue-stats" = Some (p, ts) -> (w_now w - ts <= 60)%Q ->
      overdue_stats cfg db req w
      = (mkResponse 200 p,
         mkWorld (w_cache w) (w_now w) (w_log w ++ [EvCacheGet "overdue-stats"])))
  /\ (forall uid, args_get_int (args req) "user_id" = Some uid -> uid <> 0 ->
      w_cache w !! recs_key uid = Some (p, ts) -> (w_now w - ts <= 60)%Q ->
      recs cfg db req w
      = (mkResponse 200 p,
         mkWorld (w_cache w) (w_now w) (w_log w ++ [EvCacheGet (recs_key uid)]))).
Proof.
  intros Hauth Hp. repeat apply conj.
  - intros Hk Hf. pose proof (fresh_entry_is_hit w _ _ _ _ Hk Hf) as E.
    rewrite top_books_hit by (rewrite ?E; assumption). rewrite E. reflexivity.
  - intros Hk Hf. pose proof (fresh_entry_is_hit w _ _ _ _ Hk Hf) as E.
    rewrite borrowings_trend_hit by (rewrite ?E; assumption). rewrite E. reflexivity.
  - intros Hk Hf. pose proof (fresh_entry_is_hit w _ _ _ _ Hk Hf) as E.
    rewrite top_categories_hit by (rewrite ?E; assumption). rewrite E. reflexivity.
  - intros Hk Hf. pose proof (fresh_entry_is_hit w _ _ _ _ Hk Hf) as E.
    rewrite overdue_stats_hit by (rewrite ?E; assumption). rewrite E. reflexivity.
  - intros uid Harg Hn Hk Hf. pose proof (fresh_entry_is_hit w _ _ _ _ Hk Hf) as E.
    rewrite (recs_hit cfg db req w Hauth uid) by (rewrite ?E; assumption).
    rewrite E. reflexivity.
Qed.

Lemma fresh_payload_served_without_query_witness :
  top_books (mkConfig None) example_db (mkRequest None [])
    (mkWorld {[ "top-books" := (PList [PInt 7], 100%Q) ]} 160%Q [])
  = (mkResponse 200 (PList [PInt 7]),
     mkWorld {[ "top-books" := (PList [PInt 7], 100%Q) ]} 160%Q [EvCacheGet "top-books"]).
Proof.
  destruct (fresh_payload_served_without_query (mkConfig None) example_db
              (mkRequest None [])
              (mkWorld {[ "top-books" := (PList [PInt 7], 100%Q) ]} 160%Q [])
              (PList [PInt 7]) 100%Q eq_refl eq_refl) as [Htop _].
  apply Htop; [reflexivity | vm_compute; discriminate].
Defined.

(** ** The cache across its operations *)

(** X2: an entry is valid through its ttl, bounds included.  Read at the
    clock reading it was stored at, it is returned when the ttl is zero
    or more and missed when the ttl is negative; read later, it is
    returned as long as its age is at most the ttl. *)
Theorem cache_entry_valid_through_ttl (w : world) (k : string) (v : pyval) (t : Q) :
  ((0 <= t)%Q -> (cache_get k t (cache_set k v w).2).1 = v)
  /\ ((t < 0)%Q -> (cache_get k t (cache_set k v w).2).1 = PNone)
  /\ (forall now' : Q, (now' - w_now w <= t)%Q ->
        (cache_get k t (set_clock now' (cache_set k v w).2)).1 = v).
Proof.
  repeat apply conj.
  - intros Ht. run. unfold cache_lookup. rewrite lookup_insert_eq.
    rewrite expired_same by exact Ht. reflexivity.
  - intros Ht. run. unfold cache_lookup. rewrite lookup_insert_eq.
    rewrite expired_after by lra. reflexivity.
  - intros now' Hage. run. unfold cache_lookup. rewrite lookup_insert_eq.
    rewrite expired_before by exact Hage. reflexivity.
Qed.

(** X3: the cache is a map.  A key never stored is a miss; of two stores
    under one key the later one is read; a store under one key does not
    change what is read under another; and reading leaves the map as it
    is. *)
Theorem cache_is_a_map (w : world) (k k' : string) (v v' : pyval) (t : Q) :
  (w_cache w !! k = None -> (cache_get k t w).1 = PNone)
  /\ ((0 <= t)%Q -> (cache_get k t (cache_set k v' (cache_set k v w).2).2).1 = v')
  /\ (k <> k' -> (cache_get k' t (cache_set k v w).2).1 = (cache_get k' t w).1)
  /\ w_cache (cache_get k t w).2 = w_cache w.
Proof.
  repeat apply conj.
  - intros Hk. run. unfold cache_lookup. rewrite Hk. reflexivity.
  - intros Ht. run. unfold cache_lookup. rewrite lookup_insert_eq.
    rewrite expired_same by exact Ht. reflexivity.
  - intros Hne. run. unfold cache_lookup. rewrite lookup_insert_ne by exact Hne.
    reflexivity.
  - reflexivity.
Qed.

(** ** How a request can end *)

Lemma require_api_key_cases (cfg : config) (req : request) :
  require_api_key cfg req = None \/ require_api_key cfg req = Some unauthorized.
Proof.
  unfold require_api_key. destruct (api_key_unset cfg); [left; reflexivity|].
  destruct (decide _); [left | right]; reflexivity.
Qed.

Section Outcomes.
Context `{RT : Runtime}.
Variables (cfg : config) (db : database) (req : request) (w : world).

Ltac cases hit_lemma miss_lemma :=
  unfold outcome;
  destruct (require_api_key_cases cfg req) as [Hauth | Hauth];
  [ match goal with
    | |- context [cached_payload w ?k ?ttl] =>
        destruct (truthy (cached_payload w k ttl)) eqn:Hc;
        [ right; left; split; [reflexivity|]; apply hit_lemma; assumption
        | right; right; split; [reflexivity|]; apply miss_lemma; assumption ]
    end
  | left; unfold top_books, borrowings_trend, top_categories, overdue_stats;
    rewrite Hauth; reflexivity ].

Lemma top_books_outcome :
  outcome db w "top-books" "top-books" 60%Q (json_rows (q_top_books db))
    (top_books cfg db req w).
Proof. cases top_books_hit top_books_miss. Qed.

Lemma borrowings_trend_outcome :
  outcome db w ("borrowings-trend:" +:+ py_str_int (days_arg req)) "borrowings-trend"
    120%Q (json_rows (q_borrowings_trend db (days_arg req)))
    (borrowings_trend cfg db req w).
Proof. cases borrowings_trend_hit borrowings_trend_miss. Qed.

Lemma top_categories_outcome :
  outcome db w "top-categories" "top-categories" 300%Q (json_rows (q_top_categories db))
    (top_categories cfg db req w).
Proof. cases top_categories_hit top_categories_miss. Qed.

Lemma overdue_stats_outcome :
  outcome db w "overdue-stats" "overdue-stats" 60%Q (PDict (overdue_out db))
    (overdue_stats cfg db req w).
Proof. cases overdue_stats_hit overdue_stats_miss. Qed.

Lemma recs_outcome_holds : recs_outcome db req w (recs cfg db req w).
Proof.
  unfold recs_outcome.
  destruct (require_api_key_cases cfg req) as [Hauth | Hauth];
    [| left; unfold recs; rewrite Hauth; reflexivity ].
  right.
  destruct (args_get_int (args req) "user_id") as [uid|] eqn:Harg;
    [| left; split; [left; reflexivity|]; apply recs_rejects_unparsed; assumption ].
  destruct (decide (uid = 0)) as [->|Hn];
    [ left; split; [right; reflexivity|]; apply recs_rejects_zero; assumption |].
  right. exists uid. split; [reflexivity|]. split; [exact Hn|].
  destruct (truthy (cached_payload w (recs_key uid) 60%Q)) eqn:Hc.
  - left. split; [reflexivity|]. apply recs_hit; assumption.
  - right. destruct (q_user_items db uid) as [|x xs] eqn:Hitems.
    + left. split; [reflexivity|]. split; [reflexivity|].
      apply recs_miss_no_history; assumption.
    + right. split; [reflexivity|]. split; [discriminate|].
      apply recs_miss_history; [assumption..| congruence].
Qed.

End Outcomes.

Lemma outcome_frame (db : database) (w : world) (k q : string) (ttl : Q)
    (fresh : pyval) (out : response * world) (k' : string) :
  outcome db w k q ttl fresh out -> k' <> k ->
  w_cache out.2 !! k' = w_cache w !! k'.
Proof.
  intros [-> | [[_ ->] | [_ ->]]] Hne; simpl; try reflexivity.
  apply lookup_insert_ne. congruence.
Qed.

Lemma outcome_stores_body (db : database) (w : world) (k q : string) (ttl : Q)
    (fresh : pyval) (out : response * world) :
  outcome db w k q ttl fresh out ->
  w_cache out.2 = w_cache w
  \/ (status out.1 = 200
      /\ w_cache out.2 = <[k := (body out.1, w_now out.2)]> (w_cache w)).
Proof.
  intros [-> | [[_ ->] | [_ ->]]]; simpl; [left; reflexivity.. | right].
  split; reflexivity.
Qed.

Lemma append_cancel (p a b : string) : p +:+ a = p +:+ b -> a = b.
Proof.
  induction p as [|c p IH]; intros H; [exact H|].
  apply IH. change (String c (p +:+ a) = String c (p +:+ b)) in H. congruence.
Qed.

Lemma recs_key_inj (u1 u2 : Z) : recs_key u1 = recs_key u2 -> u1 = u2.
Proof.
  unfold recs_key, py_str_int. intros H.
  apply append_cancel in H. apply (inj pretty). exact H.
Qed.

Lemma trend_key_inj (d1 d2 : Z) :
  "borrowings-trend:" +:+ py_str_int d1 = "borrowings-trend:" +:+ py_str_int d2 ->
  d1 = d2.
Proof.
  unfold py_str_int. intros H.
  apply append_cancel in H. apply (inj pretty). exact H.
Qed.

(** X4: a handler writes the cache under its own key only.  Whatever the
    request and the store, every entry under another key is after the
    request what it was before; for /borrowings-trend the own key is the
    one of the request's [days], for /recs the one of its [user_id]. *)
Theorem handlers_write_only_their_key `{RT : Runtime}
    (cfg : config) (db : database) (req : request) (w : world) (k' : string) :
  (k' <> "top-books" ->
     w_cache (top_books cfg db req w).2 !! k' = w_cache w !! k')
  /\ (k' <> "borrowings-trend:" +:+ py_str_int (days_arg req) ->
      w_cache (borrowings_trend cfg db req w).2 !! k' = w_cache w !! k')
  /\ (k' <> "top-categories" ->
      w_cache (top_categories cfg db req w).2 !! k' = w_cache w !! k')
  /\ (k' <> "overdue-stats" ->
      w_cache (overdue_stats cfg db req w).2 !! k' = w_cache w !! k')
  /\ ((forall uid, args_get_int (args req) "user_id" = Some uid -> k' <> recs_key uid) ->
      w_cache (recs cfg db req w).2 !! k' = w_cache w !! k')
  /\ w_cache (health w).2 = w_cache w
  /\ w_cache (root w).2 = w_cache w.
Proof.
  repeat apply conj; try reflexivity.
  - intros Hne. eapply outcome_frame; [apply top_books_outcome | exact Hne].
  - intros Hne. eapply outcome_frame; [apply borrowings_trend_outcome | exact Hne].
  - intros Hne. eapply outcome_frame; [apply top_categories_outcome | exact Hne].
  - intros Hne. eapply outcome_frame; [apply overdue_stats_outcome | exact Hne].
  - intros Hne.
    destruct (recs_outcome_holds cfg db req w)
      as [-> | [[_ ->] | (uid & Harg & _ & [[_ ->] | [(_ & _ & ->) | (_ & _ & ->)]])]];
      simpl; try reflexivity.
    apply lookup_insert_ne. specialize (Hne uid Harg). congruence.
Qed.

(** X5: cache keys do not collide.  Two users have two /recs keys, two
    values of [days] two /borrowings-trend keys, and no key of one
    endpoint is a key of another; so a request for one user leaves the
    entry of every other user as it was. *)
Theorem cache_keys_are_separate `{RT : Runtime} (u1 u2 d1 d2 : Z) :
  (recs_key u1 = recs_key u2 -> u1 = u2)
  /\ ("borrowings-trend:" +:+ py_str_int d1 = "borrowings-trend:" +:+ py_str_int d2 ->
      d1 = d2)
  /\ recs_key u1 <> "borrowings-trend:" +:+ py_str_int d1
  /\ (forall k, In k ["top-books"; "top-categories"; "overdue-stats"] ->
        recs_key u1 <> k /\ "borrowings-trend:" +:+ py_str_int d1 <> k)
  /\ (forall cfg db req w,
        args_get_int (args req) "user_id" = Some u1 -> u1 <> u2 ->
        w_cache (recs cfg db req w).2 !! recs_key u2 = w_cache w !! recs_key u2).
Proof.
  split; [apply recs_key_inj|]. split; [apply trend_key_inj|].
  split; [unfold recs_key; cbv [String.append]; discriminate|].
  split.
  - intros k Hk. unfold recs_key.
    destruct Hk as [<- | [<- | [<- | []]]]; split; cbv [String.append]; discriminate.
  - intros cfg db req w Harg Hne.
    destruct (recs_outcome_holds cfg db req w)
      as [-> | [[_ ->] | (uid & Harg' & _ & [[_ ->] | [(_ & _ & ->) | (_ & _ & ->)]])]];
      simpl; try reflexivity.
    apply lookup_insert_ne. intros Hk. apply recs_key_inj in Hk. congruence.
Qed.

(** X6: what a handler stores is what it answers, and it stores nothing
    else.  After any request the cache is either unchanged or changed at
    the handler's key to the body of the response, stamped with the clock
    at the end, and that response is a 200: no 401, 400 or other answer
    is ever cached. *)
Theorem handlers_store_what_they_answer `{RT : Runtime}
    (cfg : config) (db : database) (req : request) (w : world) :
  let stored (k : string) (out : response * world) :=
    w_cache out.2 = w_cache w
    \/ (status out.1 = 200
        /\ w_cache out.2 = <[k := (body out.1, w_now out.2)]> (w_cache w)) in
  stored "top-books" (top_books cfg db req w)
  /\ stored ("borrowings-trend:" +:+ py_str_int (days_arg req)) (borrowings_trend cfg db req w)
  /\ stored "top-categories" (top_categories cfg db req w)
  /\ stored "overdue-stats" (overdue_stats cfg db req w)
  /\ (w_cache (recs cfg db req w).2 = w_cache w
      \/ exists uid, args_get_int (args req) "user_id" = Some uid
                     /\ stored (recs_key uid) (recs cfg db req w)).
Proof.
  intros stored. unfold stored. repeat apply conj.
  - eapply outcome_stores_body, top_books_outcome.
  - eapply outcome_stores_body, borrowings_trend_outcome.
  - eapply outcome_stores_body, top_categories_outcome.
  - eapply outcome_stores_body, overdue_stats_outcome.
  - destruct (recs_outcome_holds cfg db req w)
      as [-> | [[_ ->] | (uid & Harg & _ & [[_ ->] | [(_ & _ & ->) | (_ & _ & ->)]])]];
      simpl; try (left; reflexivity).
    right. exists uid. split; [exact Harg|]. right. split; reflexivity.
Qed.

(** ** Two requests in a row *)

Lemma recomputed_then_fresh (db : database) (w : world) (k q : string)
    (rows : pyval) (ttl t' : Q) :
  (t' - (w_now w + db_latency db) <= ttl)%Q ->
  cached_payload (set_clock t' (recomputed db w k q rows).2) k ttl = rows.
Proof.
  intros Hage.
  apply (fresh_entry_is_hit _ k ttl rows (w_now w + db_latency db)%Q); simpl.
  - apply lookup_insert_eq.
  - exact Hage.
Qed.

Lemma recomputed_then_stale (db : database) (w : world) (k q : string)
    (rows : pyval) (ttl t' : Q) :
  (ttl < t' - (w_now w + db_latency db))%Q ->
  cached_payload (set_clock t' (recomputed db w k q rows).2) k ttl = PNone.
Proof.
  intros Hage. unfold cached_payload, cache_lookup. simpl.
  rewrite lookup_insert_eq, expired_after by exact Hage. reflexivity.
Qed.

(** X9: an answer computed for /top-books is served again for 60 seconds.
    After a request that queried the store at [db] and got at least one
    row, a second request at a clock reading [t'] at most 60 seconds past
    the time of storing gets the same body, whatever the store [db'] now
    holds, without a query; one second later than that the second request
    answers from [db'].  When the first answer was the empty list, the
    second request queries the store at once, however early it comes. *)
Theorem top_books_answer_served_for_ttl `{RT : Runtime}
    (cfg : config) (db db' : database) (req req' : request) (w : world) (t' : Q) :
  require_api_key cfg req = None ->
  require_api_key cfg req' = None ->
  truthy (cached_payload w "top-books" 60%Q) = false ->
  let w1 := set_clock t' (top_books cfg db req w).2 in
  (q_top_books db <> [] -> (t' - (w_now w + db_latency db) <= 60)%Q ->
     top_books cfg db' req' w1
     = (mkResponse 200 (json_rows (q_top_books db)),
        mkWorld (w_cache w1) t' (w_log w1 ++ [EvCacheGet "top-books"])))
  /\ ((60 < t' - (w_now w + db_latency db))%Q ->
      top_books cfg db' req' w1
      = recomputed db' w1 "top-books" "top-books" (json_rows (q_top_books db')))
  /\ (q_top_books db = [] ->
      top_books cfg db' req' w1
      = recomputed db' w1 "top-books" "top-books" (json_rows (q_top_books db'))).
Proof.
  intros Hauth Hauth' Hmiss w1. subst w1.
  rewrite (top_books_miss cfg db req w Hauth Hmiss).
  repeat apply conj.
  - intros Hrows Hage.
    pose proof (recomputed_then_fresh db w "top-books" "top-books"
                  (json_rows (q_top_books db)) 60%Q t' Hage) as E.
    rewrite top_books_hit; [| exact Hauth' |].
    + unfold served. rewrite E. reflexivity.
    + rewrite E. destruct (q_top_books db); [contradiction | reflexivity].
  - intros Hage. apply top_books_miss; [exact Hauth'|].
    rewrite recomputed_then_stale by exact Hage. reflexivity.
  - intros Hrows. apply top_books_miss; [exact Hauth'|].
    unfold cached_payload, cache_lookup. simpl. rewrite lookup_insert_eq.
    rewrite Hrows. destruct (expired _ _ _); reflexivity.
Qed.

Lemma top_books_answer_served_for_ttl_witness :
  top_books (mkConfig None) (mkDatabase [] [] 0 0%Q) (mkRequest None [])
    (set_clock 50%Q (top_books (mkConfig None) example_db (mkRequest None [])
                       (mkWorld ∅ 0%Q [])).2)
  = (mkResponse 200 (json_rows (q_top_books example_db)),
     mkWorld {[ "top-books" := (json_rows (q_top_books example_db), 0%Q) ]} 50%Q
       [EvCacheGet "top-books"; EvQuery "top-books"; EvCacheSet "top-books";
        EvCacheGet "top-books"]).
Proof.
  destruct (top_books_answer_served_for_ttl (mkConfig None) example_db
              (mkDatabase [] [] 0 0%Q) (mkRequest None []) (mkRequest None [])
              (mkWorld ∅ 0%Q []) 50%Q) as [Hfresh _];
    [reflexivity | reflexivity | reflexivity |].
  rewrite Hfresh; [reflexivity | discriminate | vm_compute; discriminate].
Defined.

Lemma overdue_out_truthy `{RT : Runtime} (db : database) :
  truthy (PDict (overdue_out db)) = true.
Proof. reflexivity. Qed.

(** X10: every answer of /overdue-stats is cached, the one with null
    fields too.  The dict it computes has three keys, so it is truthy
    whatever the counts are: a second request at most 60 seconds after
    the storing gets the first answer again, whatever the store holds by
    then, without a query. *)
Theorem overdue_stats_answer_always_served_for_ttl `{RT : Runtime}
    (cfg : config) (db db' : database) (req req' : request) (w : world) (t' : Q) :
  require_api_key cfg req = None ->
  require_api_key cfg req' = None ->
  truthy (cached_payload w "overdue-stats" 60%Q) = false ->
  (t' - (w_now w + db_latency db) <= 60)%Q ->
  let w1 := set_clock t' (overdue_stats cfg db req w).2 in
  overdue_stats cfg db' req' w1
  = (mkResponse 200 (PDict (overdue_out db)),
     mkWorld (w_cache w1) t' (w_log w1 ++ [EvCacheGet "overdue-stats"])).
Proof.
  intros Hauth Hauth' Hmiss Hage w1. subst w1.
  rewrite (overdue_stats_miss cfg db req w Hauth Hmiss).
  pose proof (recomputed_then_fresh db w "overdue-stats" "overdue-stats"
                (PDict (overdue_out db)) 60%Q t' Hage) as E.
  rewrite overdue_stats_hit; [| exact Hauth' |].
  - rewrite E. reflexivity.
  - rewrite E. apply overdue_out_truthy.
Qed.

(** After a first request on the empty table, a second one 30 seconds
    later still gets the null fields although a borrowing exists by then. *)
Lemma overdue_stats_answer_always_served_for_ttl_witness :
  (overdue_stats (mkConfig None)
     (mkDatabase [mkBorrowing 1 1 10 None None None] [] 0 0%Q) (mkRequest None [])
     (set_clock 30%Q (overdue_stats (mkConfig None) (mkDatabase [] [] 0 0%Q)
                        (mkRequest None []) (mkWorld ∅ 0%Q [])).2)).1
  = mkResponse 200 (PDict [("overdue_now", PNone); ("borrowed_now", PNone);
                           ("returned_this_month", PNone)]).
Proof.
  rewrite (overdue_stats_answer_always_served_for_ttl (mkConfig None)
             (mkDatabase [] [] 0 0%Q)
             (mkDatabase [mkBorrowing 1 1 10 None None None] [] 0 0%Q)
             (mkRequest None []) (mkRequest None []) (mkWorld ∅ 0%Q []) 30%Q);
    [reflexivity | reflexivity | reflexivity | reflexivity | vm_compute; discriminate].
Defined.

(** X11: /recs for one user, asked twice.  When the first request found
    no history (and nothing was stored under the user's key), nothing was
    cached: a second request is answered from the store as it is then, at
    whatever time it comes, so a first borrowing shows at once.  When the
    first request computed at least one recommendation, a second request
    at most 60 seconds after the storing gets the same rows again,
    whatever the store holds by then. *)
Theorem recs_second_request `{RT : Runtime}
    (cfg : config) (db db' : database) (req req' : request) (w : world)
    (uid : Z) (t' : Q) :
  require_api_key cfg req = None ->
  require_api_key cfg req' = None ->
  args_get_int (args req) "user_id" = Some uid ->
  args_get_int (args req') "user_id" = Some uid ->
  uid <> 0 ->
  w_cache w !! recs_key uid = None ->
  let w1 := set_clock t' (recs cfg db req w).2 in
  (q_user_items db uid = [] -> q_user_items db' uid <> [] ->
     (recs cfg db' req' w1).1
     = mkResponse 200 (json_rows (shaped <$> recs_groups db' uid)))
  /\ (q_user_items db uid <> [] -> recs_groups db uid <> [] ->
      (t' - (w_now w + db_latency db + db_latency db) <= 60)%Q ->
      recs cfg db' req' w1
      = (mkResponse 200 (json_rows (shaped <$> recs_groups db uid)),
         mkWorld (w_cache w1) t' (w_log w1 ++ [EvCacheGet (recs_key uid)]))).
Proof.
  intros Hauth Hauth' Harg Harg' Hn Hnone w1.
  assert (Hmiss : truthy (cached_payload w (recs_key uid) 60%Q) = false).
  { unfold cached_payload, cache_lookup. rewrite Hnone. reflexivity. }
  subst w1. split.
  - intros Hitems Hitems'.
    rewrite (recs_miss_no_history cfg db req w uid) by assumption.
    rewrite (recs_miss_history cfg db' req' _ uid); try assumption; [reflexivity|].
    unfold cached_payload, cache_lookup. simpl. rewrite Hnone. reflexivity.
  - intros Hitems Hrows Hage.
    rewrite (recs_miss_history cfg db req w uid) by assumption.
    assert (E : cached_payload
                  (set_clock t'
                     (mkWorld
                        (<[recs_key uid := (json_rows (shaped <$> recs_groups db uid),
                                            (w_now w + db_latency db + db_latency db)%Q)]>
                           (w_cache w))
                        (w_now w + db_latency db + db_latency db)%Q
                        (w_log w ++ [EvCacheGet (recs_key uid); EvQuery "q_user_items";
                                     EvQuery "q_recs"; EvCacheSet (recs_key uid)])))
                  (recs_key uid) 60%Q
                = json_rows (shaped <$> recs_groups db uid)).
    { apply (fresh_entry_is_hit _ _ _ _ (w_now w + db_latency db + db_latency db)%Q);
        simpl; [apply lookup_insert_eq | exact Hage]. }
    simpl. rewrite (recs_hit cfg db' req' _ Hauth' uid); try assumption.
    + rewrite E. reflexivity.
    + rewrite E. destruct (recs_groups db uid); [contradiction | reflexivity].
Qed.

(** User 2 had no borrowing at the first request and has two at the
    second, one second later. *)
Lemma recs_second_request_witness :
  (recs (mkConfig None) example_db (mkRequest None [("user_id", "2")])
     (set_clock 1%Q (recs (mkConfig None)
                       (mkDatabase [] (items example_db) 0 0%Q)
                       (mkRequest None [("user_id", "2")]) (mkWorld ∅ 0%Q [])).2)).1
  = mkResponse 200 (json_rows (shaped <$> recs_groups example_db 2)).
Proof.
  destruct (recs_second_request (mkConfig None)
              (mkDatabase [] (items example_db) 0 0%Q) example_db
              (mkRequest None [("user_id", "2")]) (mkRequest None [("user_id", "2")])
              (mkWorld ∅ 0%Q []) 2 1%Q) as [Hnew _];
    [reflexivity | reflexivity | reflexivity | reflexivity | lia | reflexivity |].
  apply Hnew; [reflexivity | discriminate].
Defined.

(** ** What a request reads *)

(** X12: the key only gates.  The guard lets a request through exactly
    when no key is configured or the header equals the key; and a request
    it lets through is handled by each protected endpoint exactly as it
    is with no key configured at all. *)
Theorem guard_only_gates `{RT : Runtime} (cfg : config) (db : database) (req : request) :
  (require_api_key cfg req = None
   <-> api_key_unset cfg = true \/ x_api_key req = API_KEY cfg)
  /\ (require_api_key cfg req = None ->
      top_books cfg db req = top_books (mkConfig None) db req
      /\ recs cfg db req = recs (mkConfig None) db req
      /\ borrowings_trend cfg db req = borrowings_trend (mkConfig None) db req
      /\ top_categories cfg db req = top_categories (mkConfig None) db req
      /\ overdue_stats cfg db req = overdue_stats (mkConfig None) db req).
Proof.
  split.
  - unfold require_api_key. destruct (api_key_unset cfg).
    + split; [left; reflexivity | reflexivity].
    + destruct (decide (x_api_key req = API_KEY cfg)) as [Heq | Hne].
      * split; [right; exact Heq | reflexivity].
      * split; [discriminate | intros [? | ?]; [discriminate | contradiction]].
  - intros Hauth.
    unfold top_books, recs, borrowings_trend, top_categories, overdue_stats.
    rewrite Hauth. repeat split; reflexivity.
Qed.

(** X13: a handler reads of the request its [X-API-KEY] header and its
    own parameter, as an integer, and nothing else.  Two requests with the
    same header are handled alike by /top-books, /top-categories and
    /overdue-stats; by /recs when [user_id] parses to the same result; by
    /borrowings-trend when [days] does, where a missing or unparsable
    [days] counts as 30 and any integer, zero and negatives too, as
    itself. *)
Theorem handlers_read_header_and_own_parameter `{RT : Runtime}
    (cfg : config) (db : database) (req req' : request) :
  x_api_key req = x_api_key req' ->
  top_books cfg db req = top_books cfg db req'
  /\ top_categories cfg db req = top_categories cfg db req'
  /\ overdue_stats cfg db req = overdue_stats cfg db req'
  /\ (args_get_int (args req) "user_id" = args_get_int (args req') "user_id" ->
      recs cfg db req = recs cfg db req')
  /\ (days_arg req = days_arg req' ->
      borrowings_trend cfg db req = borrowings_trend cfg db req')
  /\ (args_get (args req) "days" = None -> days_arg req = 30)
  /\ (forall s, args_get (args req) "days" = Some s -> py_int s = None ->
        days_arg req = 30)
  /\ (forall s n, args_get (args req) "days" = Some s -> py_int s = Some n ->
        days_arg req = n).
Proof.
  intros Hkey.
  assert (Hguard : require_api_key cfg req = require_api_key cfg req').
  { unfold require_api_key. rewrite Hkey. reflexivity. }
  unfold top_books, top_categories, overdue_stats, recs, borrowings_trend.
  rewrite Hguard. repeat apply conj; try reflexivity.
  - intros Harg. rewrite Harg. reflexivity.
  - intros Hdays. rewrite Hdays. reflexivity.
  - intros Hmiss. unfold days_arg, args_get_int. rewrite Hmiss. reflexivity.
  - intros s Hs Hbad. unfold days_arg, args_get_int. rewrite Hs, Hbad. reflexivity.
  - intros s n Hs Hint. unfold days_arg, args_get_int. rewrite Hs, Hint. reflexivity.
Qed.

Lemma handlers_read_header_and_own_parameter_witness :
  recs (mkConfig (Some "k")) example_db
    (mkRequest (Some "k") [("user_id", "1"); ("page", "2")])
  = recs (mkConfig (Some "k")) example_db
      (mkRequest (Some "k") [("verbose", "yes"); ("user_id", " +01 ")])
  /\ borrowings_trend (mkConfig None) example_db (mkRequest None [("days", "soon")])
     = borrowings_trend (mkConfig None) example_db (mkRequest None [("days", "30")]).
Proof.
  split.
  - destruct (handlers_read_header_and_own_parameter (mkConfig (Some "k")) example_db
                (mkRequest (Some "k") [("user_id", "1"); ("page", "2")])
                (mkRequest (Some "k") [("verbose", "yes"); ("user_id", " +01 ")]))
      as (_ & _ & _ & Hrecs & _); [reflexivity|].
    apply Hrecs. reflexivity.
  - destruct (handlers_read_header_and_own_parameter (mkConfig None) example_db
                (mkRequest None [("days", "soon")]) (mkRequest None [("days", "30")]))
      as (_ & _ & _ & _ & Htrend & _); [reflexivity|].
    apply Htrend. reflexivity.
Defined.

(** ** Groups *)

Lemma filter_all {A} (P : A -> Prop) `{forall x, Decision (P x)} (l : list A) :
  (forall x, P x) -> filter P l = l.
Proof.
  intros HP. induction l as [|x l IH]; [reflexivity|].
  rewrite filter_cons_True by apply HP. rewrite IH. reflexivity.
Qed.

Section Groups.
Context {A K : Type} `{EqDecision K}.
Variable key : A -> K.

Lemma group_by_keys (rows : list A) :
  (group_by key rows).*1 = remove_dups (key <$> rows).
Proof.
  unfold group_by. rewrite <- list_fmap_compose.
  apply list_fmap_id.
Qed.

Lemma group_by_NoDup (rows : list A) : NoDup (group_by key rows).*1.
Proof. rewrite group_by_keys. apply NoDup_remove_dups. Qed.

Lemma group_by_elem_of (rows : list A) (g : K * list A) :
  g ∈ group_by key rows ->
  g.2 = filter (fun r => key r = g.1) rows /\ exists r, r ∈ rows /\ key r = g.1.
Proof.
  unfold group_by. intros Hg.
  apply list_elem_of_fmap in Hg as (k & -> & Hk). simpl. split; [reflexivity|].
  apply elem_of_remove_dups, list_elem_of_fmap in Hk as (r & -> & Hr).
  exists r. split; [exact Hr | reflexivity].
Qed.

(** No group is empty. *)
Lemma group_by_count_positive (rows : list A) (g : K * list A) :
  g ∈ group_by key rows -> 1 <= sql_count g.2.
Proof.
  intros Hg. apply group_by_elem_of in Hg as (-> & r & Hr & Hk).
  assert (Hin : r ∈ filter (fun r0 => key r0 = g.1) rows)
    by (apply list_elem_of_filter; split; assumption).
  unfold sql_count. destruct (filter _ rows); [inversion Hin | simpl; lia].
Qed.

(** All groups together hold every row once. *)
Lemma group_by_total (rows : list A) :
  sum_Z ((fun g => sql_count g.2) <$> group_by key rows) = sql_count rows.
Proof.
  pose proof (group_by_counts key (fun _ => True) rows) as H.
  rewrite !filter_all in H by (intros; exact I).
  exact H.
Qed.

End Groups.

(** A prefix of a sorted permutation keeps distinct keys distinct. *)
Lemma NoDup_take_order_by `{RT : Runtime} {A B} (f : A -> B)
    (le : A -> A -> bool) (l : list A) (n : nat) :
  NoDup (f <$> l) -> NoDup (f <$> take n (order_by le l)).
Proof.
  intros Hnd. rewrite fmap_take.
  eapply sublist_NoDup; [| apply sublist_take].
  rewrite (order_by_perm _ le l). exact Hnd.
Qed.

Lemma elem_of_take_order_by `{RT : Runtime} {A} (le : A -> A -> bool)
    (l : list A) (n : nat) (x : A) :
  x ∈ take n (order_by le l) -> x ∈ l.
Proof. intros Hx. apply subseteq_take in Hx. apply order_by_elem_of in Hx. exact Hx. Qed.

Lemma sum_Z_perm (l1 l2 : list Z) : l1 ≡ₚ l2 -> sum_Z l1 = sum_Z l2.
Proof.
  unfold sum_Z. induction 1 as [|x l1 l2 _ IH|x y l|l1 l2 l3 _ IH1 _ IH2];
    simpl; lia.
Qed.

(** ** /top-books: the rows *)

Section TopBooks.
Context `{RT : Runtime}.
Variable db : database.

Lemma top_books_groups_keys :
  (top_books_groups db).*1
  = (group_by (fun bi : borrowing * item => (i_id bi.2, i_name bi.2))
       (borrowed_items db)).*1.
Proof.
  unfold top_books_groups. rewrite <- list_fmap_compose.
  apply list_fmap_ext. intros _ [[a b] l] _. reflexivity.
Qed.

Lemma top_books_groups_elem_of (r : Z * option string * Z) :
  r ∈ top_books_groups db ->
  1 <= r.2
  /\ r.2 = sql_count (filter (fun bi : borrowing * item => (i_id bi.2, i_name bi.2) = r.1)
                        (borrowed_items db)).
Proof.
  unfold top_books_groups. intros Hr.
  apply list_elem_of_fmap in Hr as ([[a b] l] & -> & Hg). simpl.
  split; [apply (group_by_count_positive _ _ _ Hg)|].
  apply group_by_elem_of in Hg as [Hl _]. simpl in Hl. rewrite Hl. reflexivity.
Qed.

Lemma top_books_groups_total :
  sum_Z ((top_books_groups db).*2) = sql_count (borrowed_items db).
Proof.
  unfold top_books_groups. rewrite <- list_fmap_compose.
  apply (group_by_total (fun bi : borrowing * item => (i_id bi.2, i_name bi.2))).
Qed.

End TopBooks.

(** X14: the rows of /top-books.  There are five at most, in descending
    order of count; no (item, name) pair comes twice; the count of a row
    is the number of borrowings of that item, and is at least 1, so an
    item nobody borrowed is never listed; and when five groups or fewer
    exist, the counts add up to the number of borrowings that have an
    item. *)
Theorem top_books_rows_are_the_top_counts `{RT : Runtime} (db : database) :
  q_top_books db
  = (fun r => [("id", PInt r.1.1); ("name", py_text r.1.2); ("borrow_count", PInt r.2)])
      <$> top_books_rows db
  /\ (length (top_books_rows db) <= 5)%nat
  /\ Sorted (fun x y => y.2 <= x.2) (top_books_rows db)
  /\ NoDup (top_books_rows db).*1
  /\ (forall r, r ∈ top_books_rows db ->
        1 <= r.2
        /\ r.2 = sql_count (filter (fun bi : borrowing * item =>
                                      (i_id bi.2, i_name bi.2) = r.1)
                              (borrowed_items db)))
  /\ ((length (top_books_groups db) <= 5)%nat ->
      sum_Z ((top_books_rows db).*2) = sql_count (borrowed_items db)).
Proof.
  split; [reflexivity|].
  split; [unfold top_books_rows; rewrite length_take; lia|].
  split; [apply Sorted_take, order_by_desc_sorted|].
  split.
  { apply NoDup_take_order_by. rewrite top_books_groups_keys. apply group_by_NoDup. }
  split.
  { intros r Hr. apply top_books_groups_elem_of.
    eapply elem_of_take_order_by. exact Hr. }
  intros Hfew. unfold top_books_rows.
  rewrite take_ge by (rewrite order_by_length; exact Hfew).
  rewrite <- top_books_groups_total.
  apply sum_Z_perm. rewrite (order_by_perm _ _ (top_books_groups db)). reflexivity.
Qed.

(** ** /borrowings-trend: the rows *)

Lemma length_omap_filter {A B} (f : A -> option B) (l : list A) :
  length (omap f l) = length (filter (fun x => is_Some (f x)) l).
Proof.
  induction l as [|x l IH]; [reflexivity|]. csimpl. rewrite filter_cons.
  destruct (f x) as [y|].
  - rewrite decide_True by eauto. simpl. rewrite IH. reflexivity.
  - rewrite decide_False by apply is_Some_None. exact IH.
Qed.

Lemma filter_ext_iff {A} (P Q : A -> Prop) `{forall x, Decision (P x)}
    `{forall x, Decision (Q x)} (l : list A) :
  (forall x, P x <-> Q x) -> filter P l = filter Q l.
Proof.
  intros HPQ. induction l as [|x l IH]; [reflexivity|].
  rewrite !filter_cons, IH.
  destruct (decide (P x)) as [HP|HP], (decide (Q x)) as [HQ|HQ];
    try reflexivity; exfalso; apply HPQ in HP || apply HPQ in HQ; contradiction.
Qed.

Section Trend.
Context `{RT : Runtime}.
Variables (db : database) (days : Z).

Lemma trend_rows_count :
  sql_count (trend_rows db days) = count_where (approved_since db days) db.
Proof.
  unfold count_where, sql_count, trend_rows. rewrite length_omap_filter.
  do 2 f_equal. apply filter_ext_iff. intros b. unfold approved_since.
  destruct (b_approval_date b) as [t|]; simpl.
  - destruct (minus_days (db_now db) days <=? t); split; intros H;
      try reflexivity; try discriminate; try (eexists; reflexivity).
    destruct H as [? H]. discriminate.
  - split; [intros [? H]; discriminate | discriminate].
Qed.

Lemma trend_rows_elem_of (t : Z) :
  t ∈ trend_rows db days
  <-> exists b, b ∈ borrowings db /\ b_approval_date b = Some t
                /\ minus_days (db_now db) days <= t.
Proof.
  unfold trend_rows. rewrite list_elem_of_omap. split.
  - intros (b & Hb & Hf). exists b. split; [exact Hb|].
    destruct (b_approval_date b) as [t'|]; [|discriminate].
    destruct (Z.leb_spec (minus_days (db_now db) days) t'); [|discriminate].
    injection Hf as <-. split; [reflexivity | assumption].
  - intros (b & Hb & Ha & Hw). exists b. split; [exact Hb|].
    rewrite Ha. apply Z.leb_le in Hw. rewrite Hw. reflexivity.
Qed.

End Trend.

(** X15: the rows of /borrowings-trend.  The days come in ascending order
    of their text and none comes twice; the count of a day is the number
    of counted borrowings approved on it and is at least 1; a borrowing is
    counted when its approval date is not NULL and not before
    [NOW() - days], so the counts add up to the number of those
    borrowings. *)
Theorem borrowings_trend_rows_by_day `{RT : Runtime} (db : database) (days : Z) :
  q_borrowings_trend db days
  = (fun g => [("day", PStr g.1); ("count", PInt (sql_count g.2))])
      <$> trend_groups db days
  /\ Sorted (fun x y => String.leb x.1 y.1 = true) (trend_groups db days)
  /\ NoDup (trend_groups db days).*1
  /\ (forall g, g ∈ trend_groups db days ->
        1 <= sql_count g.2
        /\ g.2 = filter (fun t => day_text t = g.1) (trend_rows db days))
  /\ (forall t, t ∈ trend_rows db days
        <-> exists b, b ∈ borrowings db /\ b_approval_date b = Some t
                      /\ minus_days (db_now db) days <= t)
  /\ sum_Z ((fun g => sql_count g.2) <$> trend_groups db days)
     = count_where (approved_since db days) db.
Proof.
  split; [reflexivity|].
  split.
  { apply (order_by_sorted _ (fun x y : string * list Z => String.leb x.1 y.1)).
    intros x y. apply String.leb_total. }
  split.
  { unfold trend_groups.
    rewrite (order_by_perm _ _ (group_by day_text (trend_rows db days))).
    apply group_by_NoDup. }
  split.
  { intros g Hg. apply order_by_elem_of in Hg. split.
    - apply (group_by_count_positive _ _ _ Hg).
    - apply group_by_elem_of in Hg as [Hl _]. exact Hl. }
  split; [apply trend_rows_elem_of|].
  rewrite <- trend_rows_count, <- (group_by_total day_text).
  apply sum_Z_perm. unfold trend_groups.
  rewrite (order_by_perm _ _ (group_by day_text (trend_rows db days))). reflexivity.
Qed.

(** ** /overdue-stats: the counts *)

Lemma sum_indicator_count {A} (cond : A -> bool) (l : list A) :
  sum_Z ((fun b => if cond b then 1 else 0) <$> l)
  = sql_count (filter (fun b => cond b = true) l).
Proof.
  unfold sql_count. induction l as [|x l IH]; [reflexivity|].
  csimpl. rewrite filter_cons. unfold sum_Z in *. cbn [foldr]. rewrite IH.
  destruct (decide (cond x = true)) as [E|E].
  - rewrite E. simpl length. lia.
  - destruct (cond x); [exfalso; apply E; reflexivity | lia].
Qed.

Lemma count_filter_le {A} (P Q : A -> Prop) `{forall x, Decision (P x)}
    `{forall x, Decision (Q x)} (l : list A) :
  (forall x, P x -> Q x) ->
  sql_count (filter P l) <= sql_count (filter Q l).
Proof.
  intros HPQ. unfold sql_count. apply inj_le.
  induction l as [|x l IH]; [reflexivity|].
  rewrite !filter_cons.
  destruct (decide (P x)) as [HP|HP], (decide (Q x)) as [HQ|HQ]; simpl; try lia.
  exfalso. apply HQ, HPQ, HP.
Qed.

Lemma count_filter_disjoint {A} (P Q : A -> Prop) `{forall x, Decision (P x)}
    `{forall x, Decision (Q x)} (l : list A) :
  (forall x, P x -> Q x -> False) ->
  sql_count (filter P l) + sql_count (filter Q l) <= sql_count l.
Proof.
  intros HPQ. unfold sql_count.
  induction l as [|x l IH]; [simpl; lia|].
  rewrite !filter_cons.
  destruct (decide (P x)) as [HP|HP], (decide (Q x)) as [HQ|HQ]; simpl length; try lia.
  exfalso. exact (HPQ x HP HQ).
Qed.

(** X16: the counts of /overdue-stats on a table that is not empty.  The
    three fields are integers: the number of borrowings not returned and
    due before [NOW()], the number not returned, and the number returned
    at or after the start of the month.  Overdue borrowings are among the
    borrowed ones, and a borrowing is not both borrowed and returned, so
    0 <= overdue_now <= borrowed_now and borrowed_now +
    returned_this_month is at most the number of borrowings. *)
Theorem overdue_stats_counts `{RT : Runtime} (db : database) :
  borrowings db <> [] ->
  overdue_out db
  = [("overdue_now", PInt (count_where (is_overdue db) db));
     ("borrowed_now", PInt (count_where is_borrowed db));
     ("returned_this_month", PInt (count_where (is_returned_this_month db) db))]
  /\ 0 <= count_where (is_overdue db) db <= count_where is_borrowed db
  /\ 0 <= count_where (is_returned_this_month db) db
  /\ count_where is_borrowed db + count_where (is_returned_this_month db) db
     <= sql_count (borrowings db).
Proof.
  intros Hne. split.
  { unfold overdue_out, q_overdue_stats. simpl.
    rewrite !sum_case_nonempty by exact Hne.
    rewrite !sum_indicator_count. reflexivity. }
  unfold count_where. split; [split|split].
  - unfold sql_count. lia.
  - apply count_filter_le. intros b. unfold is_overdue, is_borrowed.
    destruct (b_return_date b); [discriminate | reflexivity].
  - unfold sql_count. lia.
  - apply count_filter_disjoint. intros b. unfold is_borrowed, is_returned_this_month.
    destruct (b_return_date b); [discriminate | intros _; discriminate].
Qed.

Lemma overdue_stats_counts_witness :
  overdue_out (mkDatabase [mkBorrowing 1 1 10 None (Some 5) None;
                           mkBorrowing 2 1 20 None (Some 50) None;
                           mkBorrowing 3 2 10 None (Some 1) (Some 8)] [] 10 0%Q)
  = [("overdue_now", PInt 1); ("borrowed_now", PInt 2); ("returned_this_month", PInt 1)].
Proof.
  destruct (overdue_stats_counts
              (mkDatabase [mkBorrowing 1 1 10 None (Some 5) None;
                           mkBorrowing 2 1 20 None (Some 50) None;
                           mkBorrowing 3 2 10 None (Some 1) (Some 8)] [] 10 0%Q))
    as [Hout _]; [discriminate|].
  rewrite Hout. reflexivity.
Defined.

(** ** /recs: what is recommended, and why *)

Lemma sum_Z_elem_le (l : list Z) (x : Z) :
  Forall (fun y => 0 <= y) l -> x ∈ l -> x <= sum_Z l.
Proof.
  unfold sum_Z. induction 1 as [|y l Hy Hl IH]; intros Hx; [inversion Hx|].
  assert (0 <= foldr Z.add 0 l).
  { clear -Hl. induction Hl; simpl; lia. }
  apply elem_of_cons in Hx as [-> | Hx]; simpl; [lia|].
  specialize (IH Hx). lia.
Qed.

Section RecsContent.
Context `{RT : Runtime}.
Variables (db : database) (uid : Z).

Lemma co_elem_of (c : co_row) :
  c ∈ co db uid ->
  reason_item c ∈ q_user_items db uid
  /\ rec_item c <> reason_item c
  /\ 1 <= co_count c.
Proof.
  unfold co. intros Hc.
  apply list_elem_of_fmap in Hc as (g & -> & Hg). simpl.
  split; [|split]; [| |apply (group_by_count_positive _ _ _ Hg)].
  all: apply group_by_elem_of in Hg as (_ & r & Hr & <-);
    apply list_elem_of_bind in Hr as (b1 & Hr & _);
    apply list_elem_of_bind in Hr as (b2 & Hr & _);
    destruct (decide _) as [(Hu & Hi & Hin) | _]; [| inversion Hr];
    apply list_elem_of_singleton in Hr as ->; simpl.
  - exact Hin.
  - congruence.
Qed.

Lemma scores_elem_of (s : Z * Z) :
  s ∈ scores db uid ->
  s.2 = sum_Z (co_count <$> filter (fun c => rec_item c = s.1) (co db uid))
  /\ 1 <= s.2.
Proof.
  unfold scores. intros Hs.
  apply list_elem_of_fmap in Hs as (g & -> & Hg). simpl.
  apply group_by_elem_of in Hg as (Hl & c & Hc & Hk).
  rewrite Hl. split; [reflexivity|].
  assert (Hin : c ∈ filter (fun c0 => rec_item c0 = g.1) (co db uid))
    by (apply list_elem_of_filter; split; assumption).
  apply (list_elem_of_fmap_2 co_count) in Hin.
  pose proof (co_elem_of c Hc) as (_ & _ & Hpos).
  etrans; [exact Hpos|]. apply sum_Z_elem_le; [|exact Hin].
  apply Forall_fmap, Forall_forall. intros c' Hc'.
  apply list_elem_of_filter in Hc' as [_ Hc']. simpl.
  pose proof (co_elem_of c' Hc') as (_ & _ & ?). lia.
Qed.

Lemma filtered_elem_of (f : Z * Z) :
  f ∈ filtered db uid -> f ∈ scores db uid /\ f.1 ∉ q_user_items db uid.
Proof.
  unfold filtered. intros Hf. apply elem_of_take_order_by in Hf.
  apply list_elem_of_filter in Hf as [Hnot Hf]. split; assumption.
Qed.

Lemma recs_joined_elem_of (j : rec_join) :
  j ∈ recs_joined db uid ->
  j_f j ∈ filtered db uid /\ j_c j ∈ co db uid
  /\ j_i j ∈ items db /\ j_i2 j ∈ items db
  /\ rec_item (j_c j) = (j_f j).1
  /\ i_id (j_i j) = (j_f j).1
  /\ i_id (j_i2 j) = reason_item (j_c j).
Proof.
  unfold recs_joined. intros Hj.
  apply list_elem_of_bind in Hj as (f & Hj & Hf).
  apply list_elem_of_bind in Hj as (c & Hj & Hc).
  apply list_elem_of_bind in Hj as (i & Hj & Hi).
  apply list_elem_of_bind in Hj as (i2 & Hj & Hi2).
  destruct (decide _) as [(H1 & H2 & H3) | _]; [| inversion Hj].
  apply list_elem_of_singleton in Hj as ->. simpl. repeat split; assumption.
Qed.

End RecsContent.

(** X17: what /recs recommends.  The rows are five at most, in descending
    order of score.  A recommended item is never one the user has
    borrowed; its score is at least 1; it has at least one reason; and
    every reason is an item the user has borrowed, other than the
    recommended one, with a count between 1 and the score. *)
Theorem recs_recommends_only_new_items `{RT : Runtime} (db : database) (uid : Z) :
  q_recs db uid = recs_row <$> recs_groups db uid
  /\ (length (recs_groups db uid) <= 5)%nat
  /\ Sorted (fun x y => y.1.2 <= x.1.2) (recs_groups db uid)
  /\ (forall g, g ∈ recs_groups db uid ->
        dict_get (recs_row g) "id" = Some (PInt g.1.1.1)
        /\ dict_get (recs_row g) "score" = Some (PInt g.1.2)
        /\ (g.1.1.1 ∉ q_user_items db uid)
        /\ 1 <= g.1.2
        /\ g.2 <> []
        /\ (forall j, j ∈ reasons_of g.2 ->
              reason_item (j_c j) ∈ q_user_items db uid
              /\ reason_item (j_c j) <> g.1.1.1
              /\ 1 <= co_count (j_c j)
              /\ co_count (j_c j) <= g.1.2)).
Proof.
  split; [reflexivity|].
  split; [unfold recs_groups; rewrite length_take; lia|].
  split; [apply Sorted_take, (order_by_desc_sorted (fun g => g.1.2))|].
  intros g Hg. split; [reflexivity|]. split; [reflexivity|].
  apply elem_of_take_order_by in Hg.
  apply group_by_elem_of in Hg as (Hl & j0 & Hj0 & Hk0).
  pose proof (recs_joined_elem_of db uid j0 Hj0) as (Hf0 & _).
  apply filtered_elem_of in Hf0 as [Hs0 Hnew0].
  apply scores_elem_of in Hs0 as [Hsum0 Hpos0].
  assert (Hid : g.1.1.1 = (j_f j0).1) by (rewrite <- Hk0; reflexivity).
  assert (Hscore : g.1.2 = (j_f j0).2) by (rewrite <- Hk0; reflexivity).
  split; [rewrite Hid; exact Hnew0|].
  split; [rewrite Hscore; exact Hpos0|].
  split.
  { rewrite Hl. intros Hnil.
    assert (Hin : j0 ∈ filter (fun j => ((j_f j).1, i_name (j_i j), (j_f j).2) = g.1)
                         (recs_joined db uid))
      by (apply list_elem_of_filter; split; assumption).
    rewrite Hnil in Hin. inversion Hin. }
  intros j Hj. unfold reasons_of in Hj. apply order_by_elem_of in Hj.
  rewrite Hl in Hj. apply list_elem_of_filter in Hj as [Hk Hj].
  pose proof (recs_joined_elem_of db uid j Hj) as (_ & Hc & _ & _ & Hrec & _).
  pose proof (co_elem_of db uid _ Hc) as (Hin & Hne & Hpos).
  assert (Hid' : g.1.1.1 = (j_f j).1) by (rewrite <- Hk; reflexivity).
  split; [exact Hin|]. split; [rewrite Hid', <- Hrec; congruence|].
  split; [exact Hpos|].
  rewrite Hscore, Hsum0. apply sum_Z_elem_le.
  - apply Forall_fmap, Forall_forall. intros c' Hc'.
    apply list_elem_of_filter in Hc' as [_ Hc']. simpl.
    pose proof (co_elem_of db uid c' Hc') as (_ & _ & ?). lia.
  - apply list_elem_of_fmap_2, list_elem_of_filter. split; [|exact Hc].
    rewrite Hrec, <- Hid', Hid. reflexivity.
Qed.

(** ** The loop over the rows, on any row *)

Lemma dict_get_set_eq (d : pydict) (k : string) (v : pyval) :
  dict_get (dict_set d k v) k = Some v.
Proof.
  induction d as [|[k' v'] d IH]; simpl.
  - rewrite String.eqb_refl. reflexivity.
  - destruct (k' =? k)%string eqn:E; simpl; rewrite E; [reflexivity | exact IH].
Qed.

Lemma dict_get_set_ne (d : pydict) (k k' : string) (v : pyval) :
  k' <> k -> dict_get (dict_set d k v) k' = dict_get d k'.
Proof.
  intros Hne. induction d as [|[k0 v0] d IH]; simpl.
  - destruct (k =? k')%string eqn:E; [|reflexivity].
    apply String.eqb_eq in E. congruence.
  - destruct (k0 =? k)%string eqn:E; simpl.
    + apply String.eqb_eq in E. subst k0.
      destruct (k =? k')%string eqn:E'; [|reflexivity].
      apply String.eqb_eq in E'. congruence.
    + rewrite IH. reflexivity.
Qed.

Lemma titles_of_length (xs : list pyval) : (length (titles_of xs) <= length xs)%nat.
Proof.
  unfold titles_of. induction xs as [|x xs IH]; [reflexivity|].
  csimpl. destruct x; simpl; lia.
Qed.

Lemma py_slice2_length (rs : pyval) (xs : list pyval) :
  py_slice2 rs = Some xs -> (length xs <= 2)%nat.
Proof.
  destruct rs; simpl; intros H; try discriminate; injection H as <-;
    rewrite ?length_fmap, length_take; lia.
Qed.

Section ShapeAnyRow.
Context `{RT : Runtime}.

Lemma shape_row_list (r : pydict) (l : list pyval) :
  dict_get r "reasons" = Some (PList l) ->
  shape_row r = Some (dict_set r "because" (PList (titles_of (take 2 l)))).
Proof.
  intros Hr. unfold shape_row. rewrite Hr. simpl. rewrite Hr.
  destruct l; reflexivity.
Qed.

Lemma shape_row_missing (r : pydict) :
  dict_get r "reasons" = None ->
  shape_row r = Some (dict_set r "because" (PList [])).
Proof. intros Hr. unfold shape_row. rewrite Hr. simpl. rewrite Hr. reflexivity. Qed.

Lemma shape_row_bad_text (r : pydict) (s : string) :
  dict_get r "reasons" = Some (PStr s) -> json_loads s = None -> shape_row r = None.
Proof. intros Hr Hs. unfold shape_row. rewrite Hr, Hs. reflexivity. Qed.

Lemma shape_row_some (r r' : pydict) :
  shape_row r = Some r' ->
  (exists bs, dict_get r' "because" = Some (PList bs) /\ (length bs <= 2)%nat)
  /\ (forall k, k <> "reasons" -> k <> "because" -> dict_get r' k = dict_get r k).
Proof.
  unfold shape_row. intros H.
  destruct (match dict_get r "reasons" with
            | Some (PStr s) => v ← json_loads s; Some (dict_set r "reasons" v)
            | _ => Some r
            end) as [r1|] eqn:E1; [|discriminate]. simpl in H.
  destruct (py_slice2 _) as [xs|] eqn:E2; [|discriminate]. simpl in H.
  injection H as <-.
  assert (Hr1 : forall k, k <> "reasons" -> dict_get r1 k = dict_get r k).
  { intros k Hk. destruct (dict_get r "reasons") as [[| | |s| |]|];
      try (injection E1 as <-; reflexivity).
    destruct (json_loads s) as [v|]; [|discriminate]. simpl in E1.
    injection E1 as <-. apply dict_get_set_ne. exact Hk. }
  split.
  - exists (titles_of xs). split; [apply dict_get_set_eq|].
    etrans; [apply titles_of_length|]. eapply py_slice2_length. exact E2.
  - intros k Hk1 Hk2. rewrite dict_get_set_ne by exact Hk2. apply Hr1. exact Hk1.
Qed.

End ShapeAnyRow.

(** X18: the loop of lines 147-151 on any row, not only on those the
    query returns.  When it does not raise, the row has a [because] that
    is a list of two entries at most, and every key other than [reasons]
    and [because] keeps its value.  A row whose [reasons] is a list keeps
    it and gets the titles of its first two dict entries; a row without
    [reasons] gets an empty [because]; a row whose [reasons] is text that
    [json.loads] rejects makes the loop raise. *)
Theorem shape_row_on_any_row `{RT : Runtime} (r : pydict) :
  (forall r', shape_row r = Some r' ->
     (exists bs, dict_get r' "because" = Some (PList bs) /\ (length bs <= 2)%nat)
     /\ (forall k, k <> "reasons" -> k <> "because" -> dict_get r' k = dict_get r k))
  /\ (forall l, dict_get r "reasons" = Some (PList l) ->
        shape_row r = Some (dict_set r "because" (PList (titles_of (take 2 l)))))
  /\ (dict_get r "reasons" = None ->
      shape_row r = Some (dict_set r "because" (PList [])))
  /\ (forall s, dict_get r "reasons" = Some (PStr s) -> json_loads s = None ->
        shape_row r = None).
Proof.
  split; [apply shape_row_some|].
  split; [apply shape_row_list|].
  split; [apply shape_row_missing | apply shape_row_bad_text].
Qed.

(** ** Category labels *)

Lemma ltrim_head (s : string) :
  head (list_ascii_of_string (ltrim s)) <> Some " "%char.
Proof.
  induction s as [|c s IH]; simpl; [discriminate|].
  destruct (Ascii.eqb c " ") eqn:E; [exact IH|].
  simpl. intros [= ->]. rewrite Ascii.eqb_refl in E. discriminate.
Qed.

Lemma ltrim_split (s : string) :
  exists sp, list_ascii_of_string s = sp ++ list_ascii_of_string (ltrim s).
Proof.
  induction s as [|c s [sp IH]]; simpl; [exists []; reflexivity|].
  destruct (Ascii.eqb c " "); [|exists []; reflexivity].
  exists (c :: sp). simpl. rewrite IH. reflexivity.
Qed.

Lemma ltrim_id (s : string) :
  head (list_ascii_of_string s) <> Some " "%char -> ltrim s = s.
Proof.
  destruct s as [|c s]; simpl; [reflexivity|]. intros Hc.
  destruct (Ascii.eqb c " ") eqn:E; [|reflexivity].
  apply Ascii.eqb_eq in E. subst c. contradiction.
Qed.

Lemma list_string_rev (s : string) :
  list_ascii_of_string (string_rev s) = rev (list_ascii_of_string s).
Proof. unfold string_rev. apply list_ascii_of_string_of_list_ascii. Qed.

Lemma string_rev_involutive (s : string) : string_rev (string_rev s) = s.
Proof.
  unfold string_rev at 1. rewrite list_string_rev, rev_involutive.
  apply string_of_list_ascii_of_string.
Qed.

Lemma last_rev {A} (l : list A) : last (rev l) = head l.
Proof. destruct l as [|x l]; [reflexivity|]. simpl. apply last_snoc. Qed.

Lemma trim_prefix (s : string) :
  exists sp, list_ascii_of_string (ltrim s) = list_ascii_of_string (trim s) ++ sp.
Proof.
  unfold trim. rewrite list_string_rev.
  destruct (ltrim_split (string_rev (ltrim s))) as [sp H].
  rewrite list_string_rev in H. exists (rev sp).
  rewrite <- rev_app_distr, <- H, rev_involutive. reflexivity.
Qed.

Lemma trim_head (s : string) :
  head (list_ascii_of_string (trim s)) <> Some " "%char.
Proof.
  destruct (trim_prefix s) as [sp H]. pose proof (ltrim_head s) as Hh.
  rewrite H in Hh. destruct (list_ascii_of_string (trim s)); [discriminate | exact Hh].
Qed.

Lemma trim_last (s : string) :
  last (list_ascii_of_string (trim s)) <> Some " "%char.
Proof.
  unfold trim. rewrite list_string_rev, last_rev. apply ltrim_head.
Qed.

Lemma trim_id (s : string) :
  head (list_ascii_of_string s) <> Some " "%char ->
  last (list_ascii_of_string s) <> Some " "%char ->
  trim s = s.
Proof.
  intros Hh Hl. unfold trim. rewrite (ltrim_id s Hh).
  rewrite ltrim_id; [apply string_rev_involutive|].
  rewrite list_string_rev.
  rewrite <- (rev_involutive (list_ascii_of_string s)) in Hl.
  rewrite last_rev in Hl. exact Hl.
Qed.

(** X19: the labels of /top-categories.  A label is never empty and
    neither begins nor ends with a space; categories that differ only in
    spaces around them get one label; and a label, taken as a category,
    is its own label. *)
Theorem category_label_is_trimmed (c : option string) :
  category_label c <> ""
  /\ head (list_ascii_of_string (category_label c)) <> Some " "%char
  /\ last (list_ascii_of_string (category_label c)) <> Some " "%char
  /\ (forall s, c = Some s -> category_label (Some (trim s)) = category_label c)
  /\ category_label (Some (category_label c)) = category_label c.
Proof.
  assert (Hshape : category_label c = "Uncategorised"
                   \/ exists s, category_label c = trim s /\ trim s <> "").
  { unfold category_label. destruct c as [s|]; simpl; [|left; reflexivity].
    destruct (trim s =? "")%string eqn:E; [left; reflexivity|].
    right. exists s. split; [reflexivity|]. apply String.eqb_neq. exact E. }
  assert (Hne : category_label c <> "").
  { destruct Hshape as [-> | (s & -> & Hs)]; [discriminate | exact Hs]. }
  assert (Hh : head (list_ascii_of_string (category_label c)) <> Some " "%char).
  { destruct Hshape as [-> | (s & -> & _)]; [discriminate | apply trim_head]. }
  assert (Hl : last (list_ascii_of_string (category_label c)) <> Some " "%char).
  { destruct Hshape as [-> | (s & -> & _)]; [discriminate | apply trim_last]. }
  repeat split; try assumption.
  - intros s ->. unfold category_label. simpl.
    rewrite (trim_id (trim s)) by (apply trim_head || apply trim_last). reflexivity.
  - unfold category_label at 1. simpl. rewrite (trim_id _ Hh Hl).
    apply String.eqb_neq in Hne. rewrite Hne. reflexivity.
Qed.

(** ** /top-categories: the blank categories are not merged *)

Lemma unlabelled_db_groups :
  top_categories_groups unlabelled_db
  = [("Uncategorised", 3); ("Uncategorised", 2); ("Uncategorised", 1)].
Proof. reflexivity. Qed.

Lemma unlabelled_db_rows `{RT : Runtime} :
  top_categories_rows unlabelled_db
  = [("Uncategorised", 3); ("Uncategorised", 2); ("Uncategorised", 1)].
Proof.
  unfold top_categories_rows. rewrite unlabelled_db_groups.
  set (l := [("Uncategorised", 3); ("Uncategorised", 2); ("Uncategorised", 1)]).
  assert (Htrans : Transitive (fun x y : string * Z => y.2 <= x.2)).
  { intros x y z Hxy Hyz. lia. }
  assert (Heq : order_by (desc snd) l = l).
  { apply (Sorted_unique_strong (fun x y : string * Z => y.2 <= x.2)).
    - intros x1 x2 H1 H2 H12 H21.
      apply order_by_elem_of in H1. subst l.
      repeat (apply elem_of_cons in H1 as [->|H1]);
        repeat (apply elem_of_cons in H2 as [->|H2]);
        try reflexivity; try (simpl in *; lia);
        try (apply elem_of_nil in H1; contradiction);
        try (apply elem_of_nil in H2; contradiction).
    - apply order_by_desc_sorted.
    - subst l. repeat constructor; simpl; lia.
    - apply order_by_perm. }
  rewrite Heq. reflexivity.
Qed.

(** C8 fails on the code.  On a store whose items have the categories
    NULL, the empty text and two spaces, borrowed 3, 2 and 1 times, the
    claim asks for one row, "Uncategorised" with count 6.  The query
    groups by the stored category ([GROUP BY category] is the column
    [i.category], not the label of the select list), so for every runtime
    the handler answers three rows, each labelled "Uncategorised", with
    counts 3, 2 and 1. *)
Theorem top_categories_blank_categories_not_merged `{RT : Runtime} :
  sql_count (borrowed_items unlabelled_db) = 6
  /\ Forall (fun bi : borrowing * item => blank_category (i_category bi.2))
       (borrowed_items unlabelled_db)
  /\ top_categories_rows unlabelled_db
     = [("Uncategorised", 3); ("Uncategorised", 2); ("Uncategorised", 1)]
  /\ top_categories (mkConfig None) unlabelled_db (mkRequest None []) (mkWorld ∅ 0%Q [])
     = (mkResponse 200
          (PList [PDict [("category", PStr "Uncategorised"); ("count", PInt 3)];
                  PDict [("category", PStr "Uncategorised"); ("count", PInt 2)];
                  PDict [("category", PStr "Uncategorised"); ("count", PInt 1)]]),
        mkWorld
          {[ "top-categories" :=
               (PList [PDict [("category", PStr "Uncategorised"); ("count", PInt 3)];
                       PDict [("category", PStr "Uncategorised"); ("count", PInt 2)];
                       PDict [("category", PStr "Uncategorised"); ("count", PInt 1)]],
                (0 + 0)%Q) ]}
          (0 + 0)%Q
          [EvCacheGet "top-categories"; EvQuery "top-categories";
           EvCacheSet "top-categories"]).
Proof.
  split; [reflexivity|]. split.
  { repeat constructor. }
  split; [apply unlabelled_db_rows|].
  rewrite (top_categories_miss (mkConfig None) unlabelled_db (mkRequest None [])
             (mkWorld ∅ 0%Q [])) by reflexivity.
  unfold recomputed, q_top_categories. rewrite unlabelled_db_rows. reflexivity.
Qed.

(** ** Which requests are refused *)

Section Refusals.
Context `{RT : Runtime}.
Variables (cfg : config) (db : database) (req : request) (w : world).

Lemma guard_rejects_iff :
  require_api_key cfg req = Some unauthorized <-> require_api_key cfg req <> None.
Proof.
  destruct (require_api_key_cases cfg req) as [H | H]; rewrite H;
    split; intros; congruence.
Qed.

Ltac refused_by_guard hit_lemma miss_lemma :=
  split;
  [ destruct (require_api_key_cases cfg req) as [Hauth | Hauth];
    [ split; [| rewrite Hauth; discriminate];
      match goal with
      | |- context [?h cfg db req w] =>
          match type of (hit_lemma cfg db req w Hauth) with
          | truthy (cached_payload w ?k ?ttl) = true -> _ =>
              destruct (truthy (cached_payload w k ttl)) eqn:Hc;
              [ rewrite (hit_lemma cfg db req w Hauth Hc)
              | rewrite (miss_lemma cfg db req w Hauth Hc) ]
          end
      end; simpl; discriminate
    | split; [intros _; exact Hauth |];
      intros _; unfold top_books, borrowings_trend, top_categories, overdue_stats;
      rewrite Hauth; reflexivity ]
  | destruct (require_api_key_cases cfg req) as [Hauth | Hauth];
    [ match goal with
      | |- context [?h cfg db req w] =>
          match type of (hit_lemma cfg db req w Hauth) with
          | truthy (cached_payload w ?k ?ttl) = true -> _ =>
              destruct (truthy (cached_payload w k ttl)) eqn:Hc;
              [ rewrite (hit_lemma cfg db req w Hauth Hc)
              | rewrite (miss_lemma cfg db req w Hauth Hc) ]
          end
      end; simpl; discriminate
    | unfold top_books, borrowings_trend, top_categories, overdue_stats;
      rewrite Hauth; simpl; discriminate ] ].

Lemma top_books_refusals :
  (status (top_books cfg db req w).1 = 401 <-> require_api_key cfg req = Some unauthorized)
  /\ status (top_books cfg db req w).1 <> 400.
Proof. refused_by_guard top_books_hit top_books_miss. Qed.

Lemma borrowings_trend_refusals :
  (status (borrowings_trend cfg db req w).1 = 401
   <-> require_api_key cfg req = Some unauthorized)
  /\ status (borrowings_trend cfg db req w).1 <> 400.
Proof. refused_by_guard borrowings_trend_hit borrowings_trend_miss. Qed.

Lemma top_categories_refusals :
  (status (top_categories cfg db req w).1 = 401
   <-> require_api_key cfg req = Some unauthorized)
  /\ status (top_categories cfg db req w).1 <> 400.
Proof. refused_by_guard top_categories_hit top_categories_miss. Qed.

Lemma overdue_stats_refusals :
  (status (overdue_stats cfg db req w).1 = 401
   <-> require_api_key cfg req = Some unauthorized)
  /\ status (overdue_stats cfg db req w).1 <> 400.
Proof. refused_by_guard overdue_stats_hit overdue_stats_miss. Qed.

Lemma recs_refusals :
  (status (recs cfg db req w).1 = 401 <-> require_api_key cfg req = Some unauthorized)
  /\ (status (recs cfg db req w).1 = 400
      <-> require_api_key cfg req = None
          /\ (args_get_int (args req) "user_id" = None
              \/ args_get_int (args req) "user_id" = Some 0)).
Proof.
  destruct (require_api_key_cases cfg req) as [Hauth | Hauth].
  2: { unfold recs. rewrite Hauth. simpl.
       split; split; try reflexivity; try discriminate.
       intros [? _]. discriminate. }
  rewrite Hauth.
  assert (Hstatus :
    (args_get_int (args req) "user_id" = None
     \/ args_get_int (args req) "user_id" = Some 0)
    /\ status (recs cfg db req w).1 = 400
    \/ ~ (args_get_int (args req) "user_id" = None
          \/ args_get_int (args req) "user_id" = Some 0)
       /\ status (recs cfg db req w).1 = 200).
  { destruct (args_get_int (args req) "user_id") as [uid|] eqn:Harg.
    - destruct (decide (uid = 0)) as [->|Hn].
      + left. split; [right; reflexivity|].
        rewrite (recs_rejects_zero cfg db req w Hauth Harg). reflexivity.
      + right. split; [intros [? | [= ?]]; [discriminate | contradiction]|].
        destruct (truthy (cached_payload w (recs_key uid) 60%Q)) eqn:Hc.
        * rewrite (recs_hit cfg db req w Hauth uid Harg Hn Hc). reflexivity.
        * destruct (q_user_items db uid) as [|x xs] eqn:Hitems.
          -- rewrite (recs_miss_no_history cfg db req w uid Hauth Harg Hn Hc Hitems).
             reflexivity.
          -- rewrite (recs_miss_history cfg db req w uid Hauth Harg Hn Hc);
               [reflexivity | congruence].
    - left. split; [left; reflexivity|].
      rewrite (recs_rejects_unparsed cfg db req w Hauth Harg). reflexivity. }
  destruct Hstatus as [[Hbad ->] | [Hgood ->]].
  - split; split; try discriminate; try reflexivity.
    intros _. split; [reflexivity | exact Hbad].
  - split; split; try discriminate.
    intros [_ Hbad]. contradiction.
Qed.

End Refusals.

(** X7: which requests are refused.  Each protected handler answers 401
    exactly when the guard turns the request away.  /recs answers 400
    exactly when the guard let the request through and [user_id] is
    missing, is a text [int] rejects, or is zero.  The other four handlers
    never answer 400: /borrowings-trend takes 30 for a [days] it cannot
    read. *)
Theorem refusals_are_exact `{RT : Runtime}
    (cfg : config) (db : database) (req : request) (w : world) :
  ((status (top_books cfg db req w).1 = 401 <-> require_api_key cfg req = Some unauthorized)
   /\ status (top_books cfg db req w).1 <> 400)
  /\ ((status (borrowings_trend cfg db req w).1 = 401
       <-> require_api_key cfg req = Some unauthorized)
      /\ status (borrowings_trend cfg db req w).1 <> 400)
  /\ ((status (top_categories cfg db req w).1 = 401
       <-> require_api_key cfg req = Some unauthorized)
      /\ status (top_categories cfg db req w).1 <> 400)
  /\ ((status (overdue_stats cfg db req w).1 = 401
       <-> require_api_key cfg req = Some unauthorized)
      /\ status (overdue_stats cfg db req w).1 <> 400)
  /\ ((status (recs cfg db req w).1 = 401 <-> require_api_key cfg req = Some unauthorized)
      /\ (status (recs cfg db req w).1 = 400
          <-> require_api_key cfg req = None
              /\ (args_get_int (args req) "user_id" = None
                  \/ args_get_int (args req) "user_id" = Some 0))).
Proof.
  split; [apply top_books_refusals|].
  split; [apply borrowings_trend_refusals|].
  split; [apply top_categories_refusals|].
  split; [apply overdue_stats_refusals | apply recs_refusals].
Qed.

(** ** The effects of a request *)

Ltac elems H :=
  repeat (apply elem_of_cons in H as [H | H]);
  try (apply elem_of_nil in H; contradiction);
  try discriminate H.

Lemma pipeline_refused (miss : bool) (k q : string) :
  pipeline_effects false miss k q [].
Proof.
  unfold pipeline_effects. split; [split; reflexivity|].
  split; [congruence|].
  split; intros x H; elems H.
Qed.

Lemma pipeline_served (k q : string) :
  pipeline_effects true false k q [EvCacheGet k].
Proof.
  unfold pipeline_effects. split; [split; discriminate|].
  split; [reflexivity|].
  split; intros x H; elems H.
Qed.

Lemma pipeline_recomputed (k q : string) :
  pipeline_effects true true k q [EvCacheGet k; EvQuery q; EvCacheSet k].
Proof.
  unfold pipeline_effects. split; [split; discriminate|].
  split; [reflexivity|].
  split; intros x H.
  - elems H. split; [congruence | reflexivity].
  - reflexivity.
Qed.

Section Effects.
Context `{RT : Runtime}.
Variables (cfg : config) (db : database) (req : request) (w : world).

(** Whether the guard let the request through. *)
Let passed : bool := bool_decide (require_api_key cfg req = None).

Ltac effects hit_lemma miss_lemma :=
  unfold passed;
  destruct (require_api_key_cases cfg req) as [Hauth | Hauth];
  [ rewrite bool_decide_eq_true_2 by exact Hauth;
    match type of (hit_lemma cfg db req w Hauth) with
    | truthy (cached_payload w ?k ?ttl) = true -> _ =>
        destruct (truthy (cached_payload w k ttl)) eqn:Hc;
        [ rewrite (hit_lemma cfg db req w Hauth Hc);
          eexists; split; [reflexivity | apply pipeline_served]
        | rewrite (miss_lemma cfg db req w Hauth Hc);
          eexists; split; [reflexivity | apply pipeline_recomputed] ]
    end
  | rewrite bool_decide_eq_false_2 by (rewrite Hauth; discriminate);
    unfold top_books, borrowings_trend, top_categories, overdue_stats;
    rewrite Hauth; exists []; split;
    [ simpl; rewrite app_nil_r; reflexivity | apply pipeline_refused ] ].

Lemma top_books_effects :
  exists es, w_log (top_books cfg db req w).2 = w_log w ++ es
    /\ pipeline_effects passed (negb (truthy (cached_payload w "top-books" 60%Q)))
         "top-books" "top-books" es.
Proof. effects top_books_hit top_books_miss. Qed.

Lemma borrowings_trend_effects :
  exists es, w_log (borrowings_trend cfg db req w).2 = w_log w ++ es
    /\ pipeline_effects passed
         (negb (truthy (cached_payload w
                          ("borrowings-trend:" +:+ py_str_int (days_arg req)) 120%Q)))
         ("borrowings-trend:" +:+ py_str_int (days_arg req)) "borrowings-trend" es.
Proof. effects borrowings_trend_hit borrowings_trend_miss. Qed.

Lemma top_categories_effects :
  exists es, w_log (top_categories cfg db req w).2 = w_log w ++ es
    /\ pipeline_effects passed (negb (truthy (cached_payload w "top-categories" 300%Q)))
         "top-categories" "top-categories" es.
Proof. effects top_categories_hit top_categories_miss. Qed.

Lemma overdue_stats_effects :
  exists es, w_log (overdue_stats cfg db req w).2 = w_log w ++ es
    /\ pipeline_effects passed (negb (truthy (cached_payload w "overdue-stats" 60%Q)))
         "overdue-stats" "overdue-stats" es.
Proof. effects overdue_stats_hit overdue_stats_miss. Qed.

Lemma recs_effects :
  exists es, w_log (recs cfg db req w).2 = w_log w ++ es
    /\ (es = [] <-> require_api_key cfg req <> None
                    \/ args_get_int (args req) "user_id" = None
                    \/ args_get_int (args req) "user_id" = Some 0)
    /\ (forall uid, args_get_int (args req) "user_id" = Some uid ->
          (es <> [] -> head es = Some (EvCacheGet (recs_key uid)))
          /\ (forall q', EvQuery q' ∈ es ->
                truthy (cached_payload w (recs_key uid) 60%Q) = false
                /\ (q' = "q_user_items"
                    \/ (q' = "q_recs" /\ q_user_items db uid <> [])))
          /\ (forall k', EvCacheSet k' ∈ es ->
                es = [EvCacheGet (recs_key uid); EvQuery "q_user_items";
                      EvQuery "q_recs"; EvCacheSet (recs_key uid)])).
Proof.
  destruct (require_api_key_cases cfg req) as [Hauth | Hauth].
  2: { unfold recs. rewrite Hauth. exists []. simpl. rewrite app_nil_r.
       split; [reflexivity|]. split.
       - split; [intros _; left; discriminate | reflexivity].
       - intros uid _. split; [congruence|]. split; intros x Hx; elems Hx. }
  destruct (args_get_int (args req) "user_id") as [uid|] eqn:Harg.
  2: { rewrite (recs_rejects_unparsed cfg db req w Hauth Harg).
       exists []. simpl. rewrite app_nil_r. split; [reflexivity|]. split.
       - split; [intros _; right; left; reflexivity | reflexivity].
       - intros uid [=]. }
  destruct (decide (uid = 0)) as [->|Hn].
  { rewrite (recs_rejects_zero cfg db req w Hauth Harg).
    exists []. simpl. rewrite app_nil_r. split; [reflexivity|]. split.
    - split; [intros _; right; right; reflexivity | reflexivity].
    - intros uid _. split; [congruence|]. split; intros x Hx; elems Hx. }
  destruct (truthy (cached_payload w (recs_key uid) 60%Q)) eqn:Hc.
  - rewrite (recs_hit cfg db req w Hauth uid Harg Hn Hc).
    eexists. split; [reflexivity|]. split.
    + split; [discriminate | intros [? | [? | ?]]; congruence].
    + intros uid' [= <-]. split; [reflexivity|]. split; intros x Hx; elems Hx.
  - destruct (q_user_items db uid) as [|y ys] eqn:Hitems.
    + rewrite (recs_miss_no_history cfg db req w uid Hauth Harg Hn Hc Hitems).
      eexists. split; [reflexivity|]. split.
      * split; [discriminate | intros [? | [? | ?]]; congruence].
      * intros uid' [= <-]. split; [reflexivity|]. split; intros x Hx; elems Hx.
        split; [exact Hc | left; congruence].
    + rewrite (recs_miss_history cfg db req w uid Hauth Harg Hn Hc)
        by congruence.
      eexists. split; [reflexivity|]. split.
      * split; [discriminate | intros [? | [? | ?]]; congruence].
      * intros uid' [= <-]. split; [reflexivity|]. split; intros x Hx; elems Hx.
        -- split; [exact Hc | left; congruence].
        -- split; [exact Hc | right; split; [congruence | congruence]].
        -- reflexivity.
Qed.

End Effects.

(** X8: the effects of one request, as far as the source fixes them.  A
    protected handler has no effect exactly when it refuses the request
    (the guard turned it away, or /recs found no usable [user_id]);
    otherwise its first effect is the read of the cache under its own
    key.  A query is sent only after that read missed, and /recs sends
    its second query only for a user with history.  The cache is written
    only as the last step of read, query (both queries for /recs), write,
    under the key that was read. *)
Theorem effects_follow_the_pipeline `{RT : Runtime}
    (cfg : config) (db : database) (req : request) (w : world) :
  let passed := bool_decide (require_api_key cfg req = None) in
  (exists es, w_log (top_books cfg db req w).2 = w_log w ++ es
     /\ pipeline_effects passed (negb (truthy (cached_payload w "top-books" 60%Q)))
          "top-books" "top-books" es)
  /\ (exists es, w_log (borrowings_trend cfg db req w).2 = w_log w ++ es
        /\ pipeline_effects passed
             (negb (truthy (cached_payload w
                              ("borrowings-trend:" +:+ py_str_int (days_arg req))
                              120%Q)))
             ("borrowings-trend:" +:+ py_str_int (days_arg req)) "borrowings-trend" es)
  /\ (exists es, w_log (top_categories cfg db req w).2 = w_log w ++ es
        /\ pipeline_effects passed
             (negb (truthy (cached_payload w "top-categories" 300%Q)))
             "top-categories" "top-categories" es)
  /\ (exists es, w_log (overdue_stats cfg db req w).2 = w_log w ++ es
        /\ pipeline_effects passed
             (negb (truthy (cached_payload w "overdue-stats" 60%Q)))
             "overdue-stats" "overdue-stats" es)
  /\ (exists es, w_log (recs cfg db req w).2 = w_log w ++ es
        /\ (es = [] <-> require_api_key cfg req <> None
                        \/ args_get_int (args req) "user_id" = None
                        \/ args_get_int (args req) "user_id" = Some 0)
        /\ (forall uid, args_get_int (args req) "user_id" = Some uid ->
              (es <> [] -> head es = Some (EvCacheGet (recs_key uid)))
              /\ (forall q', EvQuery q' ∈ es ->
                    truthy (cached_payload w (recs_key uid) 60%Q) = false
                    /\ (q' = "q_user_items"
                        \/ (q' = "q_recs" /\ q_user_items db uid <> [])))
              /\ (forall k', EvCacheSet k' ∈ es ->
                    es = [EvCacheGet (recs_key uid); EvQuery "q_user_items";
                          EvQuery "q_recs"; EvCacheSet (recs_key uid)]))).
Proof.
  intros passed. subst passed.
  split; [apply top_books_effects|].
  split; [apply borrowings_trend_effects|].
  split; [apply top_categories_effects|].
  split; [apply overdue_stats_effects | apply recs_effects].
Qed.
